(** * AuraWell agent: the MCP tools manager v2.0

    A shallow embedding of [src/aurawell/langchain_agent/mcp_tools_manager_v2.py]
    and the properties its specification states about it.

    Conventions of the embedding:
    - a Python [int] is a [Z]; a Python [float] is an element of an abstract
      carrier [F] with the operations the module applies to it (the literal
      [0.0], [+], true division by an [int], the [.2f] format), so every
      statement holds for IEEE binary64 and for any other arithmetic;
    - a [dict] with string keys is a [gmap string _];
    - a method of the manager is a computation in the state-and-exception
      monad [M]: it takes the state of its object and returns an outcome
      ([Ok v] or [Raise e]) together with the state it leaves behind.  The
      exceptions of the model are the instances of Python's [Exception],
      which is what the [except Exception] clauses of the module catch. *)

From Stdlib Require Import ZArith QArith String List Lia.
From stdpp Require Import gmap strings list fin_maps pretty.

Open Scope Z_scope.
Open Scope string_scope.

(** ** Exceptions and the monad of methods *)

Inductive exn_class :=
| ImportError
| RuntimeError
| ValueError
| KeyError
| AttributeError
| ZeroDivisionError
| OtherException.

Record exn := mk_exn { exn_cls : exn_class; exn_msg : string }.

(** [str(e)], as interpolated by the f-strings of the module. *)
Definition str_exn (e : exn) : string := exn_msg e.

Inductive outcome (A : Type) :=
| Ok (a : A)
| Raise (e : exn).
Arguments Ok {A} a.
Arguments Raise {A} e.

Definition M (S A : Type) : Type := S -> outcome A * S.

Definition ret {S A} (a : A) : M S A := fun s => (Ok a, s).
Definition raise {S A} (e : exn) : M S A := fun s => (Raise e, s).
Definition bind {S A B} (c : M S A) (k : A -> M S B) : M S B :=
  fun s => match c s with
           | (Ok a, s') => k a s'
           | (Raise e, s') => (Raise e, s')
           end.
Definition get {S} : M S S := fun s => (Ok s, s).
Definition put {S} (s : S) : M S unit := fun _ => (Ok tt, s).
Definition modify {S} (f : S -> S) : M S unit := fun s => (Ok tt, f s).

(** [try: c except Exception as e: h e] *)
Definition try_except {S A} (c : M S A) (h : exn -> M S A) : M S A :=
  fun s => match c s with
           | (Ok a, s') => (Ok a, s')
           | (Raise e, s') => h e s'
           end.

Notation "x <- c ;; k" := (bind c (fun x => k))
  (at level 100, c at next level, right associativity).
Notation "c ;;; k" := (bind c (fun _ => k))
  (at level 100, right associativity).

(** A method of an object held in a field of the state runs on that field. *)
Definition zoom {S T A} (proj : S -> T) (upd : T -> S -> S) (c : M T A) : M S A :=
  fun s => let '(r, t) := c (proj s) in (r, upd t s).

(** ** The enumerations *)

Inductive ToolMode := REAL_MCP | PLACEHOLDER | HYBRID.

Definition ToolMode_value (m : ToolMode) : string :=
  match m with
  | REAL_MCP => "real_mcp"
  | PLACEHOLDER => "placeholder"
  | HYBRID => "hybrid"
  end.

(** [ToolExecutionMode] of [mcp_tools_enhanced]: the three members the module
    names, which are the three execution modes of the specification. *)
Inductive ToolExecutionMode := EM_REAL | EM_PLACEHOLDER | EM_HYBRID.

Global Instance ToolMode_eq_dec : EqDecision ToolMode.
Proof. solve_decision. Defined.

(** ** Python floats

    The operations the module (and the dispatcher of the specification)
    applies to floats. *)
Class FloatOps (F : Type) := {
  fzero : F;                      (* 0.0 *)
  fadd : F -> F -> F;             (* x + y *)
  fsub : F -> F -> F;             (* x - y *)
  fdiv_int : F -> Z -> F;         (* x / n for an int n <> 0 *)
  format_2f : F -> string         (* f"{x:.2f}" *)
}.

Section Manager.

Context {F : Type} `{!FloatOps F}.

(** [x / n]: true division of a float by an int, for an int in the range of
    a double ([fits_double] below), as the counters of a run from the empty
    dict are; the conversion of an int beyond that range raises
    [OverflowError], which is outside the model. *)
Definition truediv {S} (x : F) (n : Z) : M S F :=
  if Z.eqb n 0 then raise (mk_exn ZeroDivisionError "float division by zero")
  else ret (fdiv_int x n).

(** ** Values of type [Any] *)

Inductive value :=
| VNone
| VBool (b : bool)
| VInt (z : Z)
| VFloat (x : F)
| VStr (s : string)
| VObject (repr : string).   (* any other object *)

(** [v == s] for a string literal [s]. *)
Definition eq_str (v : value) (s : string) : bool :=
  match v with
  | VStr t => bool_decide (t = s)
  | _ => false
  end.

(** ** Per-tool performance statistics *)

Record Stats := mk_stats {
  total_calls : Z;
  successful_calls : Z;
  failed_calls : Z;
  total_execution_time : F;
  average_execution_time : F
}.

Definition fresh_stats : Stats := mk_stats 0 0 0 fzero fzero.

(** [_update_performance_stats], on the dict [self.tool_performance_stats].
    [stats] is a reference to the entry of the dict: a read of [stats[k]] is
    a read of the entry ([read_stats]) and an assignment to [stats[k]] is an
    update of the entry ([alter_stats]). *)
Definition read_stats (tool_name : string) : M (gmap string Stats) Stats :=
  d <- get ;;
  match d !! tool_name with
  | Some st => ret st
  | None => raise (mk_exn KeyError tool_name)
  end.

Definition alter_stats (tool_name : string) (f : Stats -> Stats) :
    M (gmap string Stats) unit :=
  modify (alter f tool_name).

Definition update_performance_stats (tool_name : string) (success : bool)
    (execution_time : F) : M (gmap string Stats) unit :=
  d <- get ;;
  match d !! tool_name with
  | None => put (<[tool_name := fresh_stats]> d)
  | Some _ => ret tt
  end ;;;
  (* stats = self.tool_performance_stats[tool_name] *)
  read_stats tool_name ;;;
  (* stats["total_calls"] += 1 *)
  alter_stats tool_name
    (fun st => mk_stats (total_calls st + 1) (successful_calls st)
                 (failed_calls st) (total_execution_time st)
                 (average_execution_time st)) ;;;
  (* stats["total_execution_time"] += execution_time *)
  alter_stats tool_name
    (fun st => mk_stats (total_calls st) (successful_calls st)
                 (failed_calls st) (fadd (total_execution_time st) execution_time)
                 (average_execution_time st)) ;;;
  (* stats["average_execution_time"] =
       stats["total_execution_time"] / stats["total_calls"] *)
  st <- read_stats tool_name ;;
  avg <- truediv (total_execution_time st) (total_calls st) ;;
  alter_stats tool_name
    (fun st => mk_stats (total_calls st) (successful_calls st)
                 (failed_calls st) (total_execution_time st) avg) ;;;
  if success
  then alter_stats tool_name
         (fun st => mk_stats (total_calls st) (successful_calls st + 1)
                      (failed_calls st) (total_execution_time st)
                      (average_execution_time st))
  else alter_stats tool_name
         (fun st => mk_stats (total_calls st) (successful_calls st)
                      (failed_calls st + 1) (total_execution_time st)
                      (average_execution_time st)).

(** ** Results of tool calls *)

(** The result object of [enhanced_tools.call_tool], with the attributes
    [call_tool_smart] reads. *)
Record EnhancedResult := mk_enhanced_result {
  er_success : bool;
  er_data : value;
  er_tool_name : string;
  er_mode_used : ToolExecutionMode;
  er_error : option string;
  er_execution_time : F
}.

Record ToolCallResult := mk_tool_call_result {
  tcr_success : bool;
  tcr_result : value;
  tcr_tool_name : string;
  tcr_mode_used : ToolMode;
  tcr_error : option string;
  tcr_execution_time : F
}.

(** ** The collaborators of the manager *)

(** [EnhancedMCPTools]: an object with state [E]. *)
Class EnhancedMCPTools (E : Type) := {
  EnhancedMCPTools_init : ToolExecutionMode -> E;
  initialize_real_interface : M E unit;
  call_tool : string -> string -> gmap string value -> M E EnhancedResult
}.

(** [MCPToolInterface], the real interface: an object with state [R]. *)
Class MCPToolInterface (R : Type) := {
  database_query : value -> M R value;
  calculator_calculate : value -> M R value;
  brave_search : value -> value -> M R value;
  filesystem_read : value -> M R value;
  filesystem_write : value -> value -> M R value;
  get_current_time : M R value;
  real_call_tool : string -> gmap string value -> M R value
}.

(** The placeholder interface: an object with state [P]; the method is
    [call_tool(tool_name, action, parameters, timeout=10.0)] followed by
    the read of [.data]. *)
Class PlaceholderInterface (P : Type) := {
  placeholder_call_tool : string -> string -> gmap string value -> M P value
}.

Context {E R P : Type}.
Context `{!EnhancedMCPTools E, !MCPToolInterface R, !PlaceholderInterface P}.

(** ** Workflow configurations and results *)

(** A step is a dict with the keys ["tool"] and ["action"]; the key
    ["parameters"] is optional ([step.get("parameters", {})]). *)
Record Step := mk_step {
  step_tool : string;
  step_action : string;
  step_parameters : option (gmap string value)
}.

(** A workflow configuration is a dict with the key ["tools"], the list of
    its steps; such a dict is not empty, so [not workflow_config] is false
    for it. *)
Record WorkflowConfig := mk_workflow_config { tools : list Step }.

Record Metadata := mk_metadata {
  md_tool_mode : string;
  total_steps : nat;
  completed_steps : nat
}.

(** [WorkflowResult] of [mcp_tools_manager]; [wr_metadata] is [None] when the
    constructor is called without [metadata]. *)
Record WorkflowResult := mk_workflow_result {
  wr_success : bool;
  wr_workflow_name : string;
  wr_results : gmap string value;
  wr_execution_summary : string;
  wr_metadata : option Metadata
}.

(** ** The manager object *)

Record MCPToolsManagerV2 := mk_manager {
  tool_mode : ToolMode;
  enhanced_tools : E;
  tool_performance_stats : gmap string Stats;
  (* attributes set by the base class [MCPToolsManager] *)
  workflows : gmap string WorkflowConfig;
  real_mcp_interface : option R;
  placeholder_interface : P
}.

Definition set_enhanced_tools (e : E) (m : MCPToolsManagerV2) :=
  mk_manager (tool_mode m) e (tool_performance_stats m) (workflows m)
    (real_mcp_interface m) (placeholder_interface m).
Definition set_tool_performance_stats (d : gmap string Stats) (m : MCPToolsManagerV2) :=
  mk_manager (tool_mode m) (enhanced_tools m) d (workflows m)
    (real_mcp_interface m) (placeholder_interface m).
Definition set_workflows (w : gmap string WorkflowConfig) (m : MCPToolsManagerV2) :=
  mk_manager (tool_mode m) (enhanced_tools m) (tool_performance_stats m) w
    (real_mcp_interface m) (placeholder_interface m).
Definition set_real_mcp_interface (r : option R) (m : MCPToolsManagerV2) :=
  mk_manager (tool_mode m) (enhanced_tools m) (tool_performance_stats m)
    (workflows m) r (placeholder_interface m).
Definition set_placeholder_interface (p : P) (m : MCPToolsManagerV2) :=
  mk_manager (tool_mode m) (enhanced_tools m) (tool_performance_stats m)
    (workflows m) (real_mcp_interface m) p.

(** [MCPToolsManager], the base class: what [super().__init__()] leaves in
    the attributes the module reads. *)
Class MCPToolsManager := {
  base_workflows : gmap string WorkflowConfig;
  base_real_mcp_interface : option R;
  base_placeholder_interface : P
}.
Context `{!MCPToolsManager}.

(** [__init__] *)
Definition MCPToolsManagerV2_init (mode : ToolMode) : MCPToolsManagerV2 :=
  let enhanced_mode :=
    if decide (mode = REAL_MCP) then EM_REAL
    else if decide (mode = PLACEHOLDER) then EM_PLACEHOLDER
    else EM_HYBRID in
  mk_manager mode (EnhancedMCPTools_init enhanced_mode) ∅
    base_workflows base_real_mcp_interface base_placeholder_interface.

(** [initialize] *)
Definition initialize : M MCPToolsManagerV2 unit :=
  try_except
    (zoom enhanced_tools set_enhanced_tools initialize_real_interface)
    (fun e =>
       self <- get ;;
       match exn_cls e with
       | ImportError =>
           if decide (tool_mode self = REAL_MCP)
           then raise (mk_exn RuntimeError "真实MCP模式需要安装MCP依赖")
           else ret tt
       | _ =>
           if decide (tool_mode self = REAL_MCP) then raise e else ret tt
       end).

(** [mode_mapping], the dict of [call_tool_smart]. *)
Definition mode_mapping (x : ToolExecutionMode) : option ToolMode :=
  match x with
  | EM_REAL => Some REAL_MCP
  | EM_PLACEHOLDER => Some PLACEHOLDER
  | EM_HYBRID => Some HYBRID
  end.

(** [call_tool_smart] *)
Definition call_tool_smart (tool_name action : string)
    (parameters : gmap string value) : M MCPToolsManagerV2 ToolCallResult :=
  enhanced_result <-
    zoom enhanced_tools set_enhanced_tools (call_tool tool_name action parameters) ;;
  ret (mk_tool_call_result
         (er_success enhanced_result)
         (er_data enhanced_result)
         (er_tool_name enhanced_result)
         (default PLACEHOLDER (mode_mapping (er_mode_used enhanced_result)))
         (er_error enhanced_result)
         (er_execution_time enhanced_result)).

(** ** The real path *)

(** A method call on [self.real_mcp_interface]; on [None] the attribute
    lookup fails. *)
Definition on_real_interface {A} (c : M R A) : M MCPToolsManagerV2 A :=
  fun self =>
    match real_mcp_interface self with
    | Some r => let '(o, r') := c r in (o, set_real_mcp_interface (Some r') self)
    | None => (Raise (mk_exn AttributeError
                 "'NoneType' object has no attribute"), self)
    end.

(** [parameters.get(key, default)] *)
Definition params_get (parameters : gmap string value) (key : string)
    (dflt : value) : value :=
  default dflt (parameters !! key).

Definition _call_real_database (action : string) (parameters : gmap string value) :
    M MCPToolsManagerV2 value :=
  if bool_decide (action = "query")
  then on_real_interface (database_query (params_get parameters "sql" (VStr "")))
  else raise (mk_exn ValueError ("不支持的数据库操作: " ++ action)).

Definition _call_real_calculator (action : string) (parameters : gmap string value) :
    M MCPToolsManagerV2 value :=
  if bool_decide (action = "calculate")
  then on_real_interface
         (calculator_calculate (params_get parameters "expression" (VStr "")))
  else raise (mk_exn ValueError ("不支持的计算器操作: " ++ action)).

Definition _call_real_search (action : string) (parameters : gmap string value) :
    M MCPToolsManagerV2 value :=
  if bool_decide (action = "search")
  then on_real_interface
         (brave_search (params_get parameters "query" (VStr ""))
            (params_get parameters "count" (VInt 5)))
  else raise (mk_exn ValueError ("不支持的搜索操作: " ++ action)).

Definition _call_real_filesystem (action : string) (parameters : gmap string value) :
    M MCPToolsManagerV2 value :=
  if bool_decide (action = "read_file")
  then on_real_interface
         (filesystem_read (params_get parameters "path" (VStr "")))
  else if bool_decide (action = "write_file")
  then on_real_interface
         (filesystem_write (params_get parameters "path" (VStr ""))
            (params_get parameters "content" (VStr "")))
  else raise (mk_exn ValueError ("不支持的文件系统操作: " ++ action)).

Definition _call_real_time (action : string) (parameters : gmap string value) :
    M MCPToolsManagerV2 value :=
  if bool_decide (action = "get_time")
  then on_real_interface get_current_time
  else raise (mk_exn ValueError ("不支持的时间操作: " ++ action)).

(** [tool_mapping], the dict of [_call_real_mcp_tool]. *)
Definition tool_mapping (tool_name : string) :
    option (string -> gmap string value -> M MCPToolsManagerV2 value) :=
  if bool_decide (tool_name = "database_sqlite") then Some _call_real_database
  else if bool_decide (tool_name = "calculator") then Some _call_real_calculator
  else if bool_decide (tool_name = "brave_search") then Some _call_real_search
  else if bool_decide (tool_name = "filesystem") then Some _call_real_filesystem
  else if bool_decide (tool_name = "time") then Some _call_real_time
  else None.

Definition _call_real_mcp_tool (tool_name action : string)
    (parameters : gmap string value) : M MCPToolsManagerV2 value :=
  self <- get ;;
  match real_mcp_interface self with
  | None => raise (mk_exn RuntimeError "真实MCP接口未初始化")
  | Some _ =>
      match tool_mapping tool_name with
      | Some adapter => adapter action parameters
      | None => on_real_interface (real_call_tool action parameters)
      end
  end.

Definition _call_placeholder_tool (tool_name action : string)
    (parameters : gmap string value) : M MCPToolsManagerV2 value :=
  zoom placeholder_interface set_placeholder_interface
    (placeholder_call_tool tool_name action parameters).

(** [_update_performance_stats] *)
Definition _update_performance_stats (tool_name : string) (success : bool)
    (execution_time : F) : M MCPToolsManagerV2 unit :=
  zoom tool_performance_stats set_tool_performance_stats
    (update_performance_stats tool_name success execution_time).

(** A caller that records the calls [cs], each a tool name, a success flag
    and a duration, one after the other. *)
Fixpoint record_calls (cs : list (string * bool * F)) : M MCPToolsManagerV2 unit :=
  match cs with
  | [] => ret tt
  | (tool_name, success, execution_time) :: rest =>
      _update_performance_stats tool_name success execution_time ;;;
      record_calls rest
  end.

(** The calls of [cs] recorded for [tool_name], their number of successes,
    and the mean of a list of durations: their sum, accumulated from [0.0]
    in the order of the calls, divided by their number. *)
Definition calls_of (tool_name : string) (cs : list (string * bool * F)) :
    list (bool * F) :=
  map (fun c => (snd (fst c), snd c))
    (filter (fun c => fst (fst c) = tool_name) cs).

Definition successes (l : list (bool * F)) : Z :=
  Z.of_nat (length (filter (fun c => fst c = true) l)).

Definition sum_durations (l : list F) : F := fold_left fadd l fzero.

Definition arithmetic_mean (l : list F) : F :=
  fdiv_int (sum_durations l) (Z.of_nat (length l)).

(** The entry one recorded call leaves behind. *)
Definition next_stats (success : bool) (x : F) (st : Stats) : Stats :=
  mk_stats (total_calls st + 1)
    (if success then successful_calls st + 1 else successful_calls st)
    (if success then failed_calls st else failed_calls st + 1)
    (fadd (total_execution_time st) x)
    (fdiv_int (fadd (total_execution_time st) x) (total_calls st + 1)).

(** The entry of a tool after the calls [l] recorded for it. *)
Definition history_stats (l : list (bool * F)) : Stats :=
  mk_stats (Z.of_nat (length l)) (successes l)
    (Z.of_nat (length l) - successes l)
    (sum_durations (map snd l)) (arithmetic_mean (map snd l)).

Definition history_entry (l : list (bool * F)) : option Stats :=
  match l with
  | [] => None
  | _ => Some (history_stats l)
  end.

(** ** The workflow runner *)

Definition newline : string := String (Ascii.ascii_of_nat 10) EmptyString.

(** The line a step appends when the dispatcher returned. *)
Definition success_line (tool_name action : string) (result : ToolCallResult) : string :=
  "✅ " ++ tool_name ++ "." ++ action ++ " (" ++
  ToolMode_value (tcr_mode_used result) ++ ") - " ++
  format_2f (tcr_execution_time result) ++ "s".

(** The line a step appends when the dispatcher raised. *)
Definition failure_line (tool_name action : string) (e : exn) : string :=
  "❌ " ++ tool_name ++ "." ++ action ++ " 失败: " ++ str_exn e.

(** [results[f"{tool_name}_{action}"]] *)
Definition result_key (tool_name action : string) : string :=
  tool_name ++ "_" ++ action.

(** [parameters["user_input"] = user_input] on the dict of step [i] of the
    registered workflow: [parameters] is the dict stored in the
    configuration, not a copy.  Every step of the registry owns its dict:
    a dict object shared by several steps or workflows is outside the
    model. *)
Definition store_step_parameters (workflow_name : string) (i : nat)
    (parameters : gmap string value) : M MCPToolsManagerV2 unit :=
  modify (fun self =>
    set_workflows
      (alter (fun cfg =>
                mk_workflow_config
                  (alter (fun st => mk_step (step_tool st) (step_action st)
                                      (Some parameters)) i (tools cfg)))
             workflow_name (workflows self))
      self).

(** [parameters = step.get("parameters", {})] and the substitution of the
    template. *)
Definition step_call_parameters (workflow_name : string) (i : nat) (step : Step)
    (user_input : string) : M MCPToolsManagerV2 (gmap string value) :=
  match step_parameters step with
  | None => ret ∅
  | Some parameters =>
      match parameters !! "user_input" with
      | Some v =>
          if eq_str v "{{user_input}}"
          then
            let parameters' := <["user_input" := VStr user_input]> parameters in
            store_step_parameters workflow_name i parameters' ;;;
            ret parameters'
          else ret parameters
      | None => ret parameters
      end
  end.

(** The body of the [for] loop, from step [i] on; [results] and
    [execution_summary] are the local variables of the method. *)
Fixpoint run_steps (workflow_name user_input : string) (i : nat) (steps : list Step)
    (results : gmap string value) (execution_summary : list string) :
    M MCPToolsManagerV2 (gmap string value * list string) :=
  match steps with
  | [] => ret (results, execution_summary)
  | step :: rest =>
      let tool_name := step_tool step in
      let action := step_action step in
      parameters <- step_call_parameters workflow_name i step user_input ;;
      acc <- try_except
               (result <- call_tool_smart tool_name action parameters ;;
                ret (<[result_key tool_name action := tcr_result result]> results,
                     (execution_summary ++ [success_line tool_name action result])%list))
               (fun e =>
                  ret (results,
                       (execution_summary ++ [failure_line tool_name action e])%list)) ;;
      run_steps workflow_name user_input (S i) rest (fst acc) (snd acc)
  end.

(** [execute_workflow_v2] *)
Definition execute_workflow_v2 (workflow_name user_input : string)
    (context : gmap string value) : M MCPToolsManagerV2 WorkflowResult :=
  self <- get ;;
  match workflows self !! workflow_name with
  | None =>
      ret (mk_workflow_result false workflow_name ∅ "工作流配置不存在" None)
  | Some workflow_config =>
      acc <- run_steps workflow_name user_input 0 (tools workflow_config) ∅ [] ;;
      self' <- get ;;
      ret (mk_workflow_result true workflow_name (fst acc)
             (String.concat newline (snd acc))
             (Some (mk_metadata (ToolMode_value (tool_mode self'))
                      (length (tools workflow_config))
                      (size (fst acc)))))
  end.

(** *** What a run of the steps dispatches

    The reference the runner is compared with: the parameters a step is
    dispatched with, and the calls of the dispatcher made for the steps,
    one after the other, each from the state the previous one left. *)

(** The dict a step is dispatched with. *)
Definition call_parameters (step : Step) (user_input : string) : gmap string value :=
  match step_parameters step with
  | None => ∅
  | Some parameters =>
      match parameters !! "user_input" with
      | Some v =>
          if eq_str v "{{user_input}}"
          then <["user_input" := VStr user_input]> parameters
          else parameters
      | None => parameters
      end
  end.

(** One entry per step: the step, the dict it was dispatched with and the
    outcome of [call_tool_smart]. *)
Definition Dispatched : Type :=
  Step * gmap string value * outcome ToolCallResult.

Fixpoint dispatch_trace (workflow_name user_input : string) (i : nat)
    (steps : list Step) (self : MCPToolsManagerV2) :
    list Dispatched * MCPToolsManagerV2 :=
  match steps with
  | [] => ([], self)
  | step :: rest =>
      let self1 := snd (step_call_parameters workflow_name i step user_input self) in
      let parameters := call_parameters step user_input in
      let '(o, self2) :=
        call_tool_smart (step_tool step) (step_action step) parameters self1 in
      let '(tr, self3) := dispatch_trace workflow_name user_input (S i) rest self2 in
      ((step, parameters, o) :: tr, self3)
  end.

(** The results stored and the line appended for one dispatched step. *)
Definition store_result (results : gmap string value) (c : Dispatched) :
    gmap string value :=
  match c with
  | (step, _, Ok result) =>
      <[result_key (step_tool step) (step_action step) := tcr_result result]> results
  | (_, _, Raise _) => results
  end.

Definition line_of (c : Dispatched) : string :=
  match c with
  | (step, _, Ok result) => success_line (step_tool step) (step_action step) result
  | (step, _, Raise e) => failure_line (step_tool step) (step_action step) e
  end.

Definition stored_results (tr : list Dispatched) : gmap string value :=
  fold_left store_result tr ∅.

(** The key a dispatched step stores its result under, if it stores one. *)
Definition stored_key (c : Dispatched) : option string :=
  match c with
  | (step, _, Ok _) => Some (result_key (step_tool step) (step_action step))
  | (_, _, Raise _) => None
  end.

(** The number of calls recorded for a tool in [tool_performance_stats]. *)
Definition recorded_calls (tool_name : string) (self : MCPToolsManagerV2) : Z :=
  total_calls (default fresh_stats (tool_performance_stats self !! tool_name)).

(** *** The table of the real path *)

Definition mapped_tools : list string :=
  ["database_sqlite"; "calculator"; "brave_search"; "filesystem"; "time"].

(** The actions the adapter of a mapped tool recognizes, and the text its
    error starts with. *)
Definition adapter_actions (tool_name : string) : list string :=
  if bool_decide (tool_name = "database_sqlite") then ["query"]
  else if bool_decide (tool_name = "calculator") then ["calculate"]
  else if bool_decide (tool_name = "brave_search") then ["search"]
  else if bool_decide (tool_name = "filesystem") then ["read_file"; "write_file"]
  else if bool_decide (tool_name = "time") then ["get_time"]
  else [].

Definition unsupported_prefix (tool_name : string) : string :=
  if bool_decide (tool_name = "database_sqlite") then "不支持的数据库操作: "
  else if bool_decide (tool_name = "calculator") then "不支持的计算器操作: "
  else if bool_decide (tool_name = "brave_search") then "不支持的搜索操作: "
  else if bool_decide (tool_name = "filesystem") then "不支持的文件系统操作: "
  else if bool_decide (tool_name = "time") then "不支持的时间操作: "
  else "".

(** ** The module-level instance

    Objects are identified by their address in a heap of managers, so that
    returning the same instance is returning the same address. *)
Record ModuleState := mk_module_state {
  heap : list MCPToolsManagerV2;
  _mcp_tools_manager_v2 : option nat
}.

(** A method call on the object at address [a]. *)
Definition on_object {A} (a : nat) (c : M MCPToolsManagerV2 A) : M ModuleState A :=
  fun g =>
    match heap g !! a with
    | Some obj =>
        let '(o, obj') := c obj in
        (o, mk_module_state (<[a := obj']> (heap g)) (_mcp_tools_manager_v2 g))
    | None => (Raise (mk_exn OtherException "dangling reference"), g)
    end.

(** [get_mcp_tools_manager_v2]; the value returned is the content of the
    global, [None] or the address of a manager. *)
Definition get_mcp_tools_manager_v2 (mode : ToolMode) : M ModuleState (option nat) :=
  g <- get ;;
  match _mcp_tools_manager_v2 g with
  | None =>
      let a := length (heap g) in
      put (mk_module_state (heap g ++ [MCPToolsManagerV2_init mode])%list (Some a)) ;;;
      on_object a initialize
  | Some _ => ret tt
  end ;;;
  g' <- get ;;
  ret (_mcp_tools_manager_v2 g').

(** A caller that asks for the manager once per element of [modes], going
    on after a call that raised; it collects the outcomes. *)
Fixpoint get_manager_calls (modes : list ToolMode) (g : ModuleState) :
    list (outcome (option nat)) * ModuleState :=
  match modes with
  | [] => ([], g)
  | mode :: rest =>
      let '(o, g') := get_mcp_tools_manager_v2 mode g in
      let '(os, g'') := get_manager_calls rest g' in
      (o :: os, g'')
  end.

End Manager.

(** * The dispatcher behind [enhanced_tools]

    [call_tool_smart] hands every call to [enhanced_tools.call_tool], of the
    module [mcp_tools_enhanced], which is not among the sources.  Where a
    property depends on what that method does, it is taken from the
    specification of the Smart Dispatcher. *)

Section Dispatcher.

Context {F : Type} `{!FloatOps F}.

(** Modelled from the spec: the Capability Interface of [mcp_tools_enhanced]
    (4.1), the uniform contract [call(tool_name, action, parameters)] of a
    backend with state [B], which returns a raw result or fails. *)
Class CapabilityInterface (B : Type) := {
  capability_call :
    string -> string -> gmap string (@value F) -> M B (@value F)
}.

(** Modelled from the spec: the environment of [mcp_tools_enhanced] the
    dispatcher is built in, that is the outcome of connecting the real
    backend, the placeholder backend and the wall clock. *)
Class DispatcherEnv (Rb Pb : Type) := {
  connect_real : outcome Rb;
  new_placeholder : Pb;
  wall_clock : nat -> F
}.

Context {Rb Pb : Type}.
Context `{!CapabilityInterface Rb, !CapabilityInterface Pb, !DispatcherEnv Rb Pb}.

(** Modelled from the spec: the state of the [EnhancedMCPTools] object of
    [mcp_tools_enhanced]: the mode fixed at construction (3), the real
    backend (absent until it is initialized), the placeholder backend, the
    number of clock readings taken and the events of the Performance
    Tracker (4.4: one event per call, no deduplication). *)
Record Dispatcher := mk_dispatcher {
  d_mode : ToolExecutionMode;
  d_real : option Rb;
  d_placeholder : Pb;
  d_ticks : nat;
  d_events : list (string * bool * F)
}.

(** Modelled from the spec: the wall-clock reading of [mcp_tools_enhanced]
    that [execution_time] is measured with (4.3). *)
Definition now : M Dispatcher F :=
  fun d =>
    (Ok (wall_clock (d_ticks d)),
     mk_dispatcher (d_mode d) (d_real d) (d_placeholder d) (S (d_ticks d))
       (d_events d)).

(** Modelled from the spec: the real path of [mcp_tools_enhanced] (4.2, 4.3),
    which fails when the real interface was never initialized and otherwise
    calls the real backend. *)
Definition real_path (tool_name action : string)
    (parameters : gmap string (@value F)) : M Dispatcher (@value F) :=
  fun d =>
    match d_real d with
    | None => (Raise (mk_exn RuntimeError "真实MCP接口未初始化"), d)
    | Some r =>
        let '(o, r') := capability_call tool_name action parameters r in
        (o, mk_dispatcher (d_mode d) (Some r') (d_placeholder d) (d_ticks d)
              (d_events d))
    end.

(** Modelled from the spec: the placeholder path of [mcp_tools_enhanced]
    (4.2), a call of the placeholder backend. *)
Definition placeholder_path (tool_name action : string)
    (parameters : gmap string (@value F)) : M Dispatcher (@value F) :=
  zoom d_placeholder
    (fun p d => mk_dispatcher (d_mode d) (d_real d) p (d_ticks d) (d_events d))
    (capability_call tool_name action parameters).

(** Modelled from the spec: what one attempt of [mcp_tools_enhanced] yields,
    the fields of a [CallResult] (3) but its timing. *)
Record Attempt := mk_attempt {
  a_success : bool;
  a_data : @value F;
  a_mode_used : ToolExecutionMode;
  a_error : option string
}.

(** Modelled from the spec: one attempt of [mcp_tools_enhanced] on a backend;
    a failure of the backend is captured as a non-success with the error
    string (4.3, 7). *)
Definition attempt (mode_used : ToolExecutionMode)
    (c : M Dispatcher (@value F)) : M Dispatcher Attempt :=
  try_except
    (data <- c ;; ret (mk_attempt true data mode_used None))
    (fun e => ret (mk_attempt false VNone mode_used (Some (str_exn e)))).

(** Modelled from the spec: the Mode Resolver of [mcp_tools_enhanced] (4.2):
    Real attempts real only, Placeholder attempts placeholder only, Hybrid
    attempts real and, if that fails for any reason, attempts placeholder. *)
Definition resolve (mode : ToolExecutionMode) (tool_name action : string)
    (parameters : gmap string (@value F)) : M Dispatcher Attempt :=
  match mode with
  | EM_REAL => attempt EM_REAL (real_path tool_name action parameters)
  | EM_PLACEHOLDER =>
      attempt EM_PLACEHOLDER (placeholder_path tool_name action parameters)
  | EM_HYBRID =>
      a <- attempt EM_REAL (real_path tool_name action parameters) ;;
      if a_success a then ret a
      else attempt EM_PLACEHOLDER (placeholder_path tool_name action parameters)
  end.

(** Modelled from the spec: [record(tool_name, success, execution_time)] of
    the Performance Tracker of [mcp_tools_enhanced] (4.4). *)
Definition record_event (tool_name : string) (success : bool)
    (execution_time : F) : M Dispatcher unit :=
  modify (fun d =>
    mk_dispatcher (d_mode d) (d_real d) (d_placeholder d) (d_ticks d)
      (d_events d ++ [(tool_name, success, execution_time)])%list).

(** Modelled from the spec: [dispatch(tool_name, action, parameters)] of the
    Smart Dispatcher (4.3), the method [call_tool] of [mcp_tools_enhanced]:
    it executes per the resolved mode, measures the wall-clock duration of
    the attempted calls and invokes the Performance Tracker once with the
    final outcome. *)
Definition dispatch (tool_name action : string)
    (parameters : gmap string (@value F)) : M Dispatcher (@EnhancedResult F) :=
  start <- now ;;
  d <- get ;;
  a <- resolve (d_mode d) tool_name action parameters ;;
  stop <- now ;;
  record_event tool_name (a_success a) (fsub stop start) ;;;
  ret (mk_enhanced_result (a_success a) (a_data a) tool_name (a_mode_used a)
         (a_error a) (fsub stop start)).

(** Modelled from the spec: the initialization of the real interface of
    [mcp_tools_enhanced]; a backend that fails to connect stays unavailable
    (7, error kind b). *)
Definition dispatcher_initialize : M Dispatcher unit :=
  match connect_real with
  | Ok r =>
      modify (fun d =>
        mk_dispatcher (d_mode d) (Some r) (d_placeholder d) (d_ticks d)
          (d_events d))
  | Raise e => raise e
  end.

(** Modelled from the spec: the [EnhancedMCPTools] object of
    [mcp_tools_enhanced] as the collaborator of the manager. *)
#[export] Instance Dispatcher_tools : EnhancedMCPTools Dispatcher := {
  EnhancedMCPTools_init mode := mk_dispatcher mode None new_placeholder 0 [];
  initialize_real_interface := dispatcher_initialize;
  call_tool := dispatch
}.

(** The errors of the backends, as the properties of the dispatch name
    them: the real path fails with [e] when the interface is absent ([e] is
    then the error of the uninitialized interface) or when the real backend
    raises [e]; the placeholder path fails with [e] when the placeholder
    backend raises [e]; the error of a dispatch is the failure of the
    backend its mode leaves it with. *)
Definition real_failure (tool_name action : string)
    (parameters : gmap string (@value F)) (d : Dispatcher) (e : exn) : Prop :=
  match d_real d with
  | None => e = mk_exn RuntimeError "真实MCP接口未初始化"
  | Some r => fst (capability_call tool_name action parameters r) = Raise e
  end.

Definition placeholder_failure (tool_name action : string)
    (parameters : gmap string (@value F)) (d : Dispatcher) (e : exn) : Prop :=
  fst (capability_call tool_name action parameters (d_placeholder d)) = Raise e.

Definition backend_error (tool_name action : string)
    (parameters : gmap string (@value F)) (d : Dispatcher) (e : exn) : Prop :=
  match d_mode d with
  | EM_REAL => real_failure tool_name action parameters d e
  | EM_PLACEHOLDER => placeholder_failure tool_name action parameters d e
  | EM_HYBRID =>
      (∃ e', real_failure tool_name action parameters d e') ∧
      placeholder_failure tool_name action parameters d e
  end.

End Dispatcher.

(** * A concrete configuration

    Rational durations, a scripted collaborator that logs the calls it
    receives, and a registry of three workflows; the properties below are
    run on it. *)

Module Demo.

(** [f"{q:.2f}"] on a rational: rounding to the nearest hundredth, ties to
    even. *)
Definition two_digits (n : Z) : string :=
  if Z.ltb n 10 then "0" ++ pretty n else pretty n.

Definition round_hundredths (q : Q) : Z :=
  let a := (Qnum q * 100)%Z in
  let d := Z.pos (Qden q) in
  let f := (a / d)%Z in
  let r := (a mod d)%Z in
  match Z.compare (2 * r) d with
  | Lt => f
  | Gt => (f + 1)%Z
  | Eq => if Z.even f then f else (f + 1)%Z
  end.

Definition Q_format_2f (q : Q) : string :=
  let n := round_hundredths q in
  (if Z.ltb (Qnum q) 0 then "-" else "") ++
  pretty (Z.abs n / 100)%Z ++ "." ++ two_digits (Z.abs n mod 100)%Z.

#[export] Instance Q_float : FloatOps Q := {
  fzero := 0%Q;
  fadd := Qplus;
  fsub := Qminus;
  fdiv_int x n := Qred (Qdiv x (inject_Z n));
  format_2f := Q_format_2f
}.

(** The scripted collaborator: its state is the log of the calls received.
    Tool ["broken"] raises, tool ["flaky"] reports a failure without
    raising, any other tool succeeds in a quarter of a second and returns
    the [expression] it was given.  Its real interface cannot be
    initialized. *)
Definition Script : Type := list (string * string * gmap string (@value Q)).

Definition script_call_tool (tool_name action : string)
    (parameters : gmap string (@value Q)) : M Script (@EnhancedResult Q) :=
  fun log =>
    let log' := (log ++ [(tool_name, action, parameters)])%list in
    if bool_decide (tool_name = "broken")
    then (Raise (mk_exn OtherException "backend crashed"), log')
    else if bool_decide (tool_name = "flaky")
    then (Ok (mk_enhanced_result false VNone tool_name EM_REAL
                (Some "service unavailable") (1 # 2)%Q), log')
    else (Ok (mk_enhanced_result true (params_get parameters "expression" VNone)
                tool_name EM_PLACEHOLDER None (1 # 4)%Q), log').

#[export] Instance Script_tools : EnhancedMCPTools Script := {
  EnhancedMCPTools_init _ := [];
  initialize_real_interface :=
    raise (mk_exn ImportError "No module named 'mcp'");
  call_tool := script_call_tool
}.

(** A real interface and a placeholder interface without state. *)
#[export] Instance unit_real : @MCPToolInterface Q unit := {
  database_query _ := ret (VStr "rows");
  calculator_calculate _ := ret (VInt 4);
  brave_search _ _ := ret (VStr "hits");
  filesystem_read _ := ret (VStr "content");
  filesystem_write _ _ := ret (VBool true);
  get_current_time := ret (VStr "12:00");
  real_call_tool action _ := ret (VStr ("generic:" ++ action))
}.

#[export] Instance unit_placeholder : @PlaceholderInterface Q unit := {
  placeholder_call_tool _ _ _ := ret VNone
}.

Definition daily_checkin : @WorkflowConfig Q :=
  mk_workflow_config
    [ mk_step "clock" "get_time" (Some ∅);
      mk_step "calculator" "calculate"
        (Some {[ "expression" := VStr "{{user_input}}" ]}) ].

Definition ask : @WorkflowConfig Q :=
  mk_workflow_config
    [ mk_step "calculator" "calculate"
        (Some {[ "user_input" := VStr "{{user_input}}" ]}) ].

Definition bumpy : @WorkflowConfig Q :=
  mk_workflow_config
    [ mk_step "broken" "run" None;
      mk_step "flaky" "run" (Some ∅);
      mk_step "clock" "get_time" (Some ∅) ].

#[export] Instance base : @MCPToolsManager Q unit unit := {
  base_workflows :=
    {[ "daily_checkin" := daily_checkin; "ask" := ask; "bumpy" := bumpy ]};
  base_real_mcp_interface := None;
  base_placeholder_interface := tt
}.

(** The manager [MCPToolsManagerV2(mode)] of this configuration. *)
Definition manager (mode : ToolMode) : @MCPToolsManagerV2 Q Script unit unit :=
  MCPToolsManagerV2_init mode.

(** A backend that always fails and one that always answers, for the
    dispatcher of the specification. *)
Inductive down := Down.
Inductive up := Up.

#[export] Instance down_backend : @CapabilityInterface Q down := {
  capability_call _ _ _ := raise (mk_exn OtherException "connection refused")
}.

#[export] Instance up_backend : @CapabilityInterface Q up := {
  capability_call _ _ _ := ret (VInt 4)
}.

#[export] Instance env : @DispatcherEnv Q down up := {
  connect_real := Ok Down;
  new_placeholder := Up;
  wall_clock n := inject_Z (Z.of_nat n)
}.

End Demo.

(** * The rest of the manager

    The methods of the module the dispatch and the workflow runner do not
    go through: the reports, the health check and the cleanup, with the
    collaborators' methods they call. *)

(** Comparisons of a float with an int: [x < n] and [x == n]. *)
Class FloatCompare (F : Type) := {
  flt_int : F -> Z -> bool;
  feq_int : F -> Z -> bool
}.

Section Operations.

Context {F : Type} `{!FloatOps F, !FloatCompare F}.
Context {E R P : Type}.
Context `{!@EnhancedMCPTools F E, !@MCPToolInterface F R, !@PlaceholderInterface F P}.
Context `{!@MCPToolsManager F R P}.

(** ** Comparisons of a value of type [Any] with an int *)

(** [v < n]; the values without an order against an int raise [TypeError]
    (an [Exception] the module does not name). *)
Definition lt_int {S} (v : @value F) (n : Z) : M S bool :=
  match v with
  | VInt z => ret (Z.ltb z n)
  | VBool b => ret (Z.ltb (if b then 1 else 0) n)
  | VFloat x => ret (flt_int x n)
  | _ => raise (mk_exn OtherException
                  "TypeError: '<' not supported between these instances")
  end.

(** [v == n] *)
Definition eq_int (v : @value F) (n : Z) : bool :=
  match v with
  | VInt z => Z.eqb z n
  | VBool b => Z.eqb (if b then 1 else 0) n
  | VFloat x => feq_int x n
  | _ => false
  end.

(** ** The performance report *)

(** The report of the enhanced tools, a dict of which the module reads the
    key ["summary"] ([None] when the key is absent), itself a dict. *)
Record Report := mk_report {
  report_summary : option (gmap string (@value F))
}.

(** [enhanced_tools.get_performance_report()] *)
Class EnhancedReporting := {
  enhanced_get_performance_report : M E Report
}.

(** [list_available_tools()] and [cleanup()] of the real interface. *)
Class InterfaceMaintenance := {
  list_available_tools : M R (list (@value F));
  real_cleanup : M R unit
}.

Context `{!EnhancedReporting, !InterfaceMaintenance}.

Definition low_success_advice : string :=
  "工具成功率较低，建议检查网络连接和API配置".
Definition no_calls_advice : string :=
  "尚未有工具调用记录，建议进行功能测试".
Definition hybrid_advice : string :=
  "当前使用混合模式，可获得最佳的可靠性和性能平衡".

(** [_generate_performance_recommendations] *)
Definition _generate_performance_recommendations (report : Report) :
    M (@MCPToolsManagerV2 F E R P) (list string) :=
  let recommendations := [] in
  let success_rate :=
    params_get (default ∅ (report_summary report)) "success_rate" (VInt 100) in
  low <- lt_int success_rate 90 ;;
  let recommendations :=
    if low then (recommendations ++ [low_success_advice])%list
    else recommendations in
  let total_calls :=
    params_get (default ∅ (report_summary report)) "total_calls" (VInt 0) in
  let recommendations :=
    if eq_int total_calls 0 then (recommendations ++ [no_calls_advice])%list
    else recommendations in
  self <- get ;;
  let recommendations :=
    if decide (tool_mode self = HYBRID)
    then (recommendations ++ [hybrid_advice])%list
    else recommendations in
  ret recommendations.

(** The dict [get_performance_report] returns. *)
Record PerformanceReport := mk_performance_report {
  pr_tool_mode : string;
  pr_enhanced_tools_report : Report;
  pr_legacy_stats : gmap string (@Stats F);
  pr_summary : gmap string (@value F);
  pr_recommendations : list string
}.

(** [get_performance_report] *)
Definition get_performance_report :
    M (@MCPToolsManagerV2 F E R P) PerformanceReport :=
  enhanced_report <-
    zoom enhanced_tools set_enhanced_tools enhanced_get_performance_report ;;
  self <- get ;;
  recommendations <- _generate_performance_recommendations enhanced_report ;;
  ret (mk_performance_report
         (ToolMode_value (tool_mode self))
         enhanced_report
         (tool_performance_stats self)
         (default ∅ (report_summary enhanced_report))
         recommendations).

(** ** The health check and the cleanup *)

(** [health_check]; the status is the dict it returns. *)
Definition health_check :
    M (@MCPToolsManagerV2 F E R P) (gmap string (@value F)) :=
  self <- get ;;
  let health_status : gmap string (@value F) :=
    {[ "tool_mode" := VStr (ToolMode_value (tool_mode self));
       "placeholder_interface" := VStr "available";
       "real_mcp_interface" := VStr "not_available" ]} in
  match real_mcp_interface self with
  | Some _ =>
      try_except
        (tools <- on_real_interface list_available_tools ;;
         ret (<["real_mcp_tools_count" := VInt (Z.of_nat (length tools))]>
                (<["real_mcp_interface" := VStr "available"]> health_status)))
        (fun e =>
           ret (<["real_mcp_interface" := VStr ("error: " ++ str_exn e)]>
                  health_status))
  | None => ret health_status
  end.

(** [cleanup] *)
Definition cleanup : M (@MCPToolsManagerV2 F E R P) unit :=
  self <- get ;;
  match real_mcp_interface self with
  | Some _ => on_real_interface real_cleanup
  | None => ret tt
  end.

(** ** Uses of a manager

    The methods of the manager but [_update_performance_stats], as the
    operations of a caller, and the manager a sequence of them leaves. *)
Inductive operation :=
| OpInitialize
| OpCallToolSmart (tool_name action : string) (parameters : gmap string (@value F))
| OpCallReal (tool_name action : string) (parameters : gmap string (@value F))
| OpCallPlaceholder (tool_name action : string) (parameters : gmap string (@value F))
| OpExecuteWorkflow (workflow_name user_input : string)
    (context : gmap string (@value F))
| OpPerformanceReport
| OpHealthCheck
| OpCleanup.

Definition run_operation (self : @MCPToolsManagerV2 F E R P) (op : operation) :
    @MCPToolsManagerV2 F E R P :=
  match op with
  | OpInitialize => snd (initialize self)
  | OpCallToolSmart t a p => snd (call_tool_smart t a p self)
  | OpCallReal t a p => snd (_call_real_mcp_tool t a p self)
  | OpCallPlaceholder t a p => snd (_call_placeholder_tool t a p self)
  | OpExecuteWorkflow w u c => snd (execute_workflow_v2 w u c self)
  | OpPerformanceReport => snd (get_performance_report self)
  | OpHealthCheck => snd (health_check self)
  | OpCleanup => snd (cleanup self)
  end.

Definition run_operations (ops : list operation)
    (self : @MCPToolsManagerV2 F E R P) : @MCPToolsManagerV2 F E R P :=
  fold_left run_operation ops self.

(** ** Reference definitions for the properties *)

(** The ints Python converts to a float, those that round (to nearest,
    ties to even) to a finite double; the largest double is
    [2^1024 - 2^971] and [2^1024 - 2^970] is the first int that rounds
    beyond it. *)
Definition fits_double (n : Z) : Prop :=
  (- (2 ^ 1024 - 2 ^ 970) < n < 2 ^ 1024 - 2 ^ 970)%Z.

(** The values that have an order against an int. *)
Definition is_number (v : @value F) : Prop :=
  match v with
  | VInt _ | VFloat _ | VBool _ => True
  | _ => False
  end.

(** An entry of the statistics in which the counters add up and the average
    is the quotient the code stores. *)
Definition stats_ok (st : @Stats F) : Prop :=
  (0 < total_calls st)%Z ∧
  (0 ≤ successful_calls st)%Z ∧
  (0 ≤ failed_calls st)%Z ∧
  (successful_calls st + failed_calls st)%Z = total_calls st ∧
  average_execution_time st =
    fdiv_int (total_execution_time st) (total_calls st).

(** The keys the adapter of a mapped tool reads for an action, each with the
    default of its [parameters.get]. *)
Definition adapter_defaults (tool_name action : string) :
    list (string * @value F) :=
  if bool_decide (tool_name = "database_sqlite") then
    if bool_decide (action = "query") then [("sql", VStr "")] else []
  else if bool_decide (tool_name = "calculator") then
    if bool_decide (action = "calculate") then [("expression", VStr "")] else []
  else if bool_decide (tool_name = "brave_search") then
    if bool_decide (action = "search")
    then [("query", VStr ""); ("count", VInt 5)] else []
  else if bool_decide (tool_name = "filesystem") then
    if bool_decide (action = "read_file") then [("path", VStr "")]
    else if bool_decide (action = "write_file")
    then [("path", VStr ""); ("content", VStr "")] else []
  else [].

(** The step a run with [user_input] leaves in the registry. *)
Definition stored_step (user_input : string) (step : @Step F) : @Step F :=
  mk_step (step_tool step) (step_action step)
    match step_parameters step with
    | None => None
    | Some _ => Some (call_parameters step user_input)
    end.

End Operations.

Module DemoOperations.

(** Comparisons of a rational with an int. *)
#[export] Instance Q_compare : FloatCompare Q := {
  flt_int x n := Z.ltb (Qnum x) (n * Z.pos (Qden x));
  feq_int x n := Qeq_bool x (inject_Z n)
}.

(** The scripted collaborator reports nine calls of which eight succeeded:
    a success rate of 88.9 is below the threshold of 90. *)
#[export] Instance Script_reporting : @EnhancedReporting Q Demo.Script := {
  enhanced_get_performance_report :=
    ret (mk_report
           (Some {[ "success_rate" := VFloat (889 # 10)%Q;
                    "total_calls" := VInt 9 ]}))
}.

(** The stateless real interface lists two tools and cleans up. *)
#[export] Instance unit_maintenance : @InterfaceMaintenance Q unit := {
  list_available_tools := ret [VStr "calculator"; VStr "time"];
  real_cleanup := ret tt
}.

End DemoOperations.

(** * Properties *)

Section Properties.

Local Open Scope Z_scope.
Local Open Scope list_scope.

Context {F : Type} `{!FloatOps F}.
Context {E R P : Type}.
Context `{!@EnhancedMCPTools F E, !@MCPToolInterface F R, !@PlaceholderInterface F P}.
Context `{!@MCPToolsManager F R P}.

Implicit Types (self : @MCPToolsManagerV2 F E R P).
Implicit Types (d : gmap string (@Stats F)).

(** ** The performance statistics *)

Lemma update_performance_stats_step d tool_name success x :
  total_calls (default fresh_stats (d !! tool_name)) ≠ -1 →
  update_performance_stats tool_name success x d =
  (Ok tt, <[tool_name := next_stats success x (default fresh_stats (d !! tool_name))]> d).
Proof.
  intros Hne. unfold update_performance_stats, bind, get, put, ret, alter_stats,
    modify, read_stats, truediv, raise.
  destruct (d !! tool_name) as [st|] eqn:Hd; cbn in *.
  - repeat first [progress cbn | rewrite Hd | rewrite lookup_alter_eq].
    destruct (Z.eqb_spec (total_calls st + 1) 0) as [Hz|_]; [lia|].
    destruct success; cbn; f_equal; apply map_eq; intros k;
      destruct (decide (k = tool_name)) as [->|Hk];
      rewrite ?lookup_alter_eq, ?lookup_insert_eq, ?Hd;
      rewrite ?lookup_alter_ne, ?lookup_insert_ne by done; done.
  - repeat first [progress cbn | rewrite lookup_insert_eq
                  | rewrite lookup_alter_eq].
    destruct success; cbn; f_equal; apply map_eq; intros k;
      destruct (decide (k = tool_name)) as [->|Hk];
      rewrite ?lookup_alter_eq, ?lookup_insert_eq;
      rewrite ?lookup_alter_ne, ?lookup_insert_ne by done; done.
Qed.

Lemma successes_snoc (l : list (bool * F)) success x :
  successes (l ++ [(success, x)]) =
  if success then successes l + 1 else successes l.
Proof.
  unfold successes. rewrite filter_app, length_app.
  destruct success; cbn; case_decide; try done; cbn; lia.
Qed.

Lemma successes_bounds (l : list (bool * F)) :
  0 ≤ successes l ≤ Z.of_nat (length l).
Proof.
  unfold successes. pose proof (length_filter (fun c : bool * F => c.1 = true) l).
  lia.
Qed.

Lemma next_stats_history (l : list (bool * F)) success x :
  next_stats success x (default fresh_stats (history_entry l)) =
  history_stats (l ++ [(success, x)]).
Proof.
  assert (Hsum : fadd (sum_durations (map snd l)) x =
                 sum_durations (map snd (l ++ [(success, x)]))).
  { unfold sum_durations. by rewrite map_app, fold_left_app. }
  assert (Hlen : Z.of_nat (length l) + 1 = Z.of_nat (length (l ++ [(success, x)]))).
  { rewrite length_app. cbn. lia. }
  unfold history_stats at 1, arithmetic_mean.
  rewrite successes_snoc, <- Hsum, <- Hlen, length_map, <- Hlen.
  destruct l as [|c l'].
  - destruct success; cbn; f_equal.
  - cbn [history_entry default]. unfold next_stats, history_stats. cbn -[successes length Z.of_nat].
    destruct success; f_equal; rewrite ?length_map; lia.
Qed.

Lemma calls_of_snoc tool_name (cs : list (string * bool * F)) t success x :
  calls_of tool_name (cs ++ [(t, success, x)]) =
  if decide (t = tool_name) then calls_of tool_name cs ++ [(success, x)]
  else calls_of tool_name cs.
Proof.
  unfold calls_of. rewrite filter_app, map_app. cbn.
  repeat case_decide; try done. cbn. by rewrite app_nil_r.
Qed.

Lemma record_calls_app (cs cs' : list (string * bool * F)) self :
  record_calls (cs ++ cs') self =
  (record_calls cs ;;; record_calls cs') self.
Proof.
  revert self. induction cs as [|[[t success] x] cs IH]; intros self; [done|].
  cbn [record_calls app]. unfold bind in *.
  destruct (_update_performance_stats t success x self) as [[[]|e] self1]; [|done].
  by rewrite IH.
Qed.

(** After the calls [cs] on a manager whose statistics were empty, the entry
    of every tool is the one its own calls determine, and no call raised. *)
Lemma record_calls_history self cs :
  tool_performance_stats self = ∅ →
  ∃ self', record_calls cs self = (Ok tt, self') ∧
    ∀ tool_name,
      tool_performance_stats self' !! tool_name =
      history_entry (calls_of tool_name cs).
Proof.
  intros Hempty. induction cs as [|[[t success] x] cs IH] using rev_ind.
  - exists self. split; [done|]. intros tool_name. by rewrite Hempty.
  - destruct IH as (self1 & Hrun & Hent).
    rewrite record_calls_app. unfold bind at 1. rewrite Hrun.
    cbn [record_calls]. unfold bind, _update_performance_stats, zoom, ret.
    rewrite update_performance_stats_step.
    2:{ rewrite Hent. destruct (calls_of t cs); cbn; lia. }
    eexists. split; [done|]. intros tool_name. cbn.
    rewrite calls_of_snoc. destruct (decide (t = tool_name)) as [->|Hne].
    + rewrite lookup_insert_eq, Hent, next_stats_history.
      by destruct (calls_of tool_name cs).
    + by rewrite lookup_insert_ne.
Qed.

(** C1. Whatever calls of [_update_performance_stats] were recorded on a
    manager that started without statistics, none of them raises and the
    entry of a tool exists exactly when calls were recorded for it; in that
    entry [successful_calls + failed_calls = total_calls],
    [average_execution_time = total_execution_time / total_calls] when
    [total_calls > 0], and with N calls recorded for the tool of which k
    reported success, [total_calls = N], [successful_calls = k],
    [failed_calls = N - k] and [average_execution_time] is the mean of the
    N durations (their sum in the arithmetic of the code, divided by N). *)
Theorem performance_stats_invariant self cs tool_name :
  tool_performance_stats self = ∅ →
  ∃ self', record_calls cs self = (Ok tt, self') ∧
    let l := calls_of tool_name cs in
    let n := Z.of_nat (length l) in
    match tool_performance_stats self' !! tool_name with
    | None => l = []
    | Some st =>
        l ≠ [] ∧
        successful_calls st + failed_calls st = total_calls st ∧
        (0 < total_calls st →
         average_execution_time st =
         fdiv_int (total_execution_time st) (total_calls st)) ∧
        total_calls st = n ∧
        successful_calls st = successes l ∧
        failed_calls st = n - successes l ∧
        average_execution_time st = arithmetic_mean (map snd l)
    end.
Proof.
  intros Hempty.
  destruct (record_calls_history self cs Hempty) as (self' & Hrun & Hent).
  exists self'. split; [done|]. cbn zeta. rewrite Hent.
  destruct (calls_of tool_name cs) as [|c l] eqn:Hl; [done|].
  cbn [history_entry]. unfold history_stats. cbn [total_calls successful_calls
    failed_calls total_execution_time average_execution_time].
  repeat split; try done; try lia.
  intros _. unfold arithmetic_mean. by rewrite length_map.
Qed.

(** ** The workflow runner *)

Lemma step_call_parameters_ok workflow_name i (step : @Step F) user_input self :
  fst (step_call_parameters workflow_name i step user_input self) =
  Ok (call_parameters step user_input).
Proof.
  unfold step_call_parameters, call_parameters.
  destruct (step_parameters step) as [parameters|]; [|done].
  destruct (parameters !! "user_input") as [v|]; [|done].
  by destruct (eq_str v "{{user_input}}").
Qed.

Lemma dispatch_trace_length workflow_name user_input (steps : list (@Step F)) :
  ∀ i self,
    length (fst (dispatch_trace workflow_name user_input i steps self)) =
    length steps.
Proof.
  induction steps as [|step rest IH]; intros i self; [done|].
  cbn [dispatch_trace].
  destruct (call_tool_smart _ _ _ _) as [o self2].
  specialize (IH (S i) self2).
  destruct (dispatch_trace _ _ _ rest self2) as [tr self3].
  cbn in *. by rewrite IH.
Qed.

(** The loop stores and logs what the trace says, step by step, and never
    raises. *)
Lemma run_steps_trace workflow_name user_input (steps : list (@Step F)) :
  ∀ i results execution_summary self,
    run_steps workflow_name user_input i steps results execution_summary self =
    (Ok (fold_left store_result
           (fst (dispatch_trace workflow_name user_input i steps self)) results,
         execution_summary ++
         map line_of (fst (dispatch_trace workflow_name user_input i steps self))),
     snd (dispatch_trace workflow_name user_input i steps self)).
Proof.
  induction steps as [|step rest IH]; intros i results execution_summary self.
  - cbn. by rewrite app_nil_r.
  - cbn [run_steps dispatch_trace]. unfold bind at 1.
    pose proof (step_call_parameters_ok workflow_name i step user_input self) as Hp.
    destruct (step_call_parameters workflow_name i step user_input self)
      as [po self1]. cbn in Hp. subst po. cbn [snd].
    unfold bind at 1, try_except, bind at 1.
    destruct (call_tool_smart (step_tool step) (step_action step)
                (call_parameters step user_input) self1) as [[result|e] self2];
      cbn [ret fst snd]; rewrite IH;
      destruct (dispatch_trace workflow_name user_input (S i) rest self2)
        as [tr self3]; cbn [fst snd map fold_left store_result line_of];
      by rewrite <- app_assoc.
Qed.

(** What [execute_workflow_v2] returns for a registered workflow. *)
Lemma execute_workflow_v2_found self workflow_name user_input context cfg :
  workflows self !! workflow_name = Some cfg →
  execute_workflow_v2 workflow_name user_input context self =
  (Ok (mk_workflow_result true workflow_name
         (stored_results
            (fst (dispatch_trace workflow_name user_input 0 (tools cfg) self)))
         (String.concat newline
            (map line_of
               (fst (dispatch_trace workflow_name user_input 0 (tools cfg) self))))
         (Some (mk_metadata
                  (ToolMode_value
                     (tool_mode
                        (snd (dispatch_trace workflow_name user_input 0
                                (tools cfg) self))))
                  (length (tools cfg))
                  (size (stored_results
                           (fst (dispatch_trace workflow_name user_input 0
                                   (tools cfg) self))))))),
   snd (dispatch_trace workflow_name user_input 0 (tools cfg) self)).
Proof.
  intros Hcfg. unfold execute_workflow_v2, bind at 1, get. rewrite Hcfg.
  unfold bind at 1. rewrite run_steps_trace. cbn. done.
Qed.

(** The trace has one entry per configured step, in the order of the
    configuration, each with the dict [call_parameters] computes. *)
Lemma dispatch_trace_calls workflow_name user_input (steps : list (@Step F)) :
  ∀ i self,
    map (fun c : Dispatched => fst c)
      (fst (dispatch_trace workflow_name user_input i steps self)) =
    map (fun step => (step, call_parameters step user_input)) steps.
Proof.
  induction steps as [|step rest IH]; intros i self; [done|].
  cbn [dispatch_trace].
  destruct (call_tool_smart _ _ _ _) as [o self2].
  specialize (IH (S i) self2).
  destruct (dispatch_trace _ _ _ rest self2) as [tr self3].
  cbn in *. by rewrite IH.
Qed.

Lemma dispatch_trace_lookup workflow_name user_input (steps : list (@Step F)) i self
    (j : nat) step parameters o :
  fst (dispatch_trace workflow_name user_input i steps self) !! j =
    Some (step, parameters, o) →
  steps !! j = Some step ∧ parameters = call_parameters step user_input.
Proof.
  intros Hj.
  pose proof (dispatch_trace_calls workflow_name user_input steps i self) as Hc.
  apply (f_equal (fun l => l !! j)) in Hc.
  change (map ?f ?l) with (f <$> l) in Hc. unfold Dispatched in *.
  rewrite !list_lookup_fmap, Hj in Hc. cbn in Hc.
  destruct (steps !! j) as [step'|]; cbn in Hc; [|done].
  by injection Hc as -> ->.
Qed.

Lemma stored_results_size (tr : list (@Dispatched F)) (results : gmap string value) :
  (size (fold_left store_result tr results) ≤ size results + length tr)%nat.
Proof.
  revert results. induction tr as [|[[step parameters] [result|e]] tr IH];
    intros results; cbn [fold_left store_result length].
  - lia.
  - specialize (IH (<[result_key (step_tool step) (step_action step) :=
                       tcr_result result]> results)).
    rewrite map_size_insert in IH.
    destruct (results !! _); unfold id in IH; lia.
  - specialize (IH results). lia.
Qed.

(** C5. For a name that is not in the registry, [execute_workflow_v2]
    returns, without raising and without touching the manager, a result with
    [success = False], no results and the summary that says that the
    configuration of the workflow does not exist. *)
Theorem unknown_workflow_is_reported self workflow_name user_input context :
  workflows self !! workflow_name = None →
  execute_workflow_v2 workflow_name user_input context self =
  (Ok (mk_workflow_result false workflow_name ∅ "工作流配置不存在" None), self).
Proof.
  intros Hnone. unfold execute_workflow_v2, bind, get. by rewrite Hnone.
Qed.

(** C6. For a registered workflow, [execute_workflow_v2] dispatches every
    configured step in order, whatever the earlier steps did, and returns
    [success = True]; the summary has one line per step, and the line of a
    step whose dispatch raised is the failure line with the text of the
    exception. *)
Theorem registered_workflow_runs_to_completion
    self workflow_name user_input context cfg :
  workflows self !! workflow_name = Some cfg →
  let run := dispatch_trace workflow_name user_input 0 (tools cfg) self in
  ∃ r,
    execute_workflow_v2 workflow_name user_input context self = (Ok r, snd run) ∧
    wr_success r = true ∧
    map (fun c : Dispatched => fst (fst c)) (fst run) = tools cfg ∧
    wr_execution_summary r = String.concat newline (map line_of (fst run)) ∧
    length (map line_of (fst run)) = length (tools cfg) ∧
    ∀ (j : nat) step parameters e,
      fst run !! j = Some (step, parameters, Raise e) →
      map line_of (fst run) !! j =
      Some (failure_line (step_tool step) (step_action step) e).
Proof.
  intros Hcfg run. subst run. eexists.
  split; [by apply execute_workflow_v2_found|].
  cbn [wr_success wr_execution_summary]. repeat split.
  - pose proof (dispatch_trace_calls workflow_name user_input (tools cfg) 0 self) as Hc.
    apply (f_equal (map fst)) in Hc. rewrite !map_map in Hc. cbn in Hc.
    by rewrite map_id in Hc.
  - by rewrite length_map, dispatch_trace_length.
  - intros j step parameters e Hj.
    change (map ?f ?l) with (f <$> l). unfold Dispatched in *.
    by rewrite list_lookup_fmap, Hj.
Qed.

(** C7. For a registered workflow, the metadata of the result has
    [total_steps] equal to the number of configured steps, whatever their
    outcomes, and [completed_steps] equal to the number of entries of
    [results], which is at most [total_steps]. *)
Theorem workflow_step_counts self workflow_name user_input context cfg :
  workflows self !! workflow_name = Some cfg →
  ∃ r self' md,
    execute_workflow_v2 workflow_name user_input context self = (Ok r, self') ∧
    wr_metadata r = Some md ∧
    total_steps md = length (tools cfg) ∧
    completed_steps md = size (wr_results r) ∧
    (size (wr_results r) ≤ total_steps md)%nat.
Proof.
  intros Hcfg. do 3 eexists. split; [by apply execute_workflow_v2_found|].
  cbn [wr_metadata wr_results]. split; [done|].
  cbn [total_steps completed_steps]. repeat split.
  unfold stored_results.
  pose proof (stored_results_size
    (fst (dispatch_trace workflow_name user_input 0 (tools cfg) self)) ∅) as Hs.
  rewrite map_size_empty, dispatch_trace_length in Hs. lia.
Qed.

Lemma store_result_other (results : gmap string value) (c : @Dispatched F) k :
  stored_key c ≠ Some k →
  store_result results c !! k = results !! k.
Proof.
  destruct c as [[step parameters] [result|e]]; cbn; [|done].
  intros Hk. apply lookup_insert_ne. congruence.
Qed.

Lemma stored_results_other (tr : list (@Dispatched F)) (results : gmap string value) k :
  Forall (fun c => stored_key c ≠ Some k) tr →
  fold_left store_result tr results !! k = results !! k.
Proof.
  revert results. induction tr as [|c tr IH]; intros results Hall; [done|].
  inversion Hall as [|? ? Hc Htr]; subst. cbn [fold_left].
  rewrite IH by done. by apply store_result_other.
Qed.

Lemma stored_results_dom (tr : list (@Dispatched F)) (results : gmap string value) k :
  is_Some (fold_left store_result tr results !! k) ↔
  is_Some (results !! k) ∨ ∃ c, c ∈ tr ∧ stored_key c = Some k.
Proof.
  revert results. induction tr as [|c tr IH]; intros results; cbn [fold_left].
  - split; [by left|]. intros [?|(c & Hc & _)]; [done|]. by apply elem_of_nil in Hc.
  - rewrite IH. split.
    + intros [Hs|(c' & Hc' & Hk)].
      * destruct (decide (stored_key c = Some k)) as [Heq|Hne].
        -- right. exists c. split; [apply elem_of_cons; by left|done].
        -- left. by rewrite store_result_other in Hs.
      * right. exists c'. split; [apply elem_of_cons; by right|done].
    + intros [Hs|(c' & Hc' & Hk)].
      * destruct (decide (stored_key c = Some k)) as [Heq|Hne].
        -- left. destruct c as [[step parameters] [result|e]]; [|done].
           cbn in Heq. injection Heq as <-. cbn. rewrite lookup_insert_eq. by eexists.
        -- left. by rewrite store_result_other.
      * apply elem_of_cons in Hc' as [->|Hc'].
        -- left. destruct c as [[step parameters] [result|e]]; [|done].
           cbn in Hk. injection Hk as <-. cbn. rewrite lookup_insert_eq. by eexists.
        -- right. by exists c'.
Qed.

(** C9. For a registered workflow, [execute_workflow_v2] returns the
    results and the summary of the run of its steps: the summary is the
    lines of the steps, one per step and in their order, joined by
    newlines.  For every step whose dispatch returned a result, be it one
    with [success = False]: the line of the step in the summary is the
    success line, which starts with the check mark; the key of the step is
    in [results], bound to [result.result] unless a later step that returned
    stored under the same key; the keys of [results] are exactly the keys
    of the steps that did not raise, and [completed_steps] counts them. *)
Theorem failed_results_are_stored self workflow_name user_input context cfg :
  workflows self !! workflow_name = Some cfg →
  let tr := fst (dispatch_trace workflow_name user_input 0 (tools cfg) self) in
  ∃ r self' md,
    execute_workflow_v2 workflow_name user_input context self = (Ok r, self') ∧
    self' = snd (dispatch_trace workflow_name user_input 0 (tools cfg) self) ∧
    wr_metadata r = Some md ∧
    wr_results r = stored_results tr ∧
    wr_execution_summary r = String.concat newline (map line_of tr) ∧
    length (map line_of tr) = length (tools cfg) ∧
    (∀ (j : nat) step parameters result,
       tr !! j = Some (step, parameters, Ok result) →
       map line_of tr !! j =
         Some (success_line (step_tool step) (step_action step) result) ∧
       (∃ rest, success_line (step_tool step) (step_action step) result =
                ("✅ " ++ rest)%string) ∧
       is_Some (wr_results r !! result_key (step_tool step) (step_action step))) ∧
    (∀ tr1 tr2 step parameters result,
       tr = tr1 ++ (step, parameters, Ok result) :: tr2 →
       Forall (fun c => stored_key c ≠
                        Some (result_key (step_tool step) (step_action step))) tr2 →
       wr_results r !! result_key (step_tool step) (step_action step) =
       Some (tcr_result result)) ∧
    (∀ k, is_Some (wr_results r !! k) ↔ ∃ c, c ∈ tr ∧ stored_key c = Some k) ∧
    completed_steps md = size (wr_results r).
Proof.
  intros Hcfg tr. do 3 eexists.
  split; [by apply execute_workflow_v2_found|].
  cbn [wr_metadata wr_results wr_execution_summary completed_steps].
  split; [done|]. split; [done|]. split; [done|]. split; [done|].
  split; [unfold tr; by rewrite length_map, dispatch_trace_length|].
  fold tr. unfold stored_results.
  split; [|split; [|split; [|done]]].
  - intros j step parameters result Hj. split; [|split].
    + change (map ?f ?l) with (f <$> l). rewrite list_lookup_fmap.
      unfold Dispatched in *. by rewrite Hj.
    + unfold success_line. by eexists.
    + apply stored_results_dom. right. eexists. split.
      * by eapply list_elem_of_lookup_2.
      * done.
  - intros tr1 tr2 step parameters result Htr Hall. rewrite Htr.
    rewrite fold_left_app. cbn [fold_left store_result].
    rewrite stored_results_other by done. apply lookup_insert_eq.
  - intros k. rewrite stored_results_dom. split; [|by right].
    intros [Hs|Hs]; [|done]. rewrite lookup_empty in Hs. by destruct Hs.
Qed.

(** C4, as the code has it. For a registered workflow, every configured step
    is dispatched with its own parameters, in which the value of the key
    ["user_input"] is replaced by the [user_input] of the caller when it is
    the template ["{{user_input}}"]; the value of any other key is
    dispatched as configured, template or not.  The results are those the
    dispatcher returned and the summary has one line per step. *)
Theorem user_input_template_is_substituted
    self workflow_name user_input context cfg :
  workflows self !! workflow_name = Some cfg →
  let run := dispatch_trace workflow_name user_input 0 (tools cfg) self in
  ∃ r,
    execute_workflow_v2 workflow_name user_input context self = (Ok r, snd run) ∧
    wr_results r = stored_results (fst run) ∧
    wr_execution_summary r = String.concat newline (map line_of (fst run)) ∧
    length (map line_of (fst run)) = length (tools cfg) ∧
    ∀ (j : nat) step parameters o,
      fst run !! j = Some (step, parameters, o) →
      tools cfg !! j = Some step ∧
      (∀ configured,
         step_parameters step = Some configured →
         configured !! "user_input" = Some (VStr "{{user_input}}") →
         parameters = <["user_input" := VStr user_input]> configured) ∧
      (∀ k, k ≠ "user_input" →
            parameters !! k = default ∅ (step_parameters step) !! k).
Proof.
  intros Hcfg run. subst run. eexists.
  split; [by apply execute_workflow_v2_found|].
  cbn [wr_results wr_execution_summary].
  split; [done|]. split; [done|].
  split; [by rewrite length_map, dispatch_trace_length|].
  intros j step parameters o Hj.
  apply dispatch_trace_lookup in Hj as [Hstep ->].
  split; [done|]. split.
  - intros configured Hconf Htok.
    unfold call_parameters. rewrite Hconf, Htok. cbn.
    by rewrite bool_decide_eq_true_2.
  - intros k Hk. unfold call_parameters.
    destruct (step_parameters step) as [configured|]; [|done]. cbn.
    destruct (configured !! "user_input") as [v|]; [|done].
    destruct (eq_str v "{{user_input}}"); [|done].
    by rewrite lookup_insert_ne.
Qed.


(** ** The real path *)

(** The adapter of a mapped tool rejects an action it does not recognize,
    whatever the state of the manager. *)
Lemma adapter_rejects_unknown_action self tool_name action parameters :
  tool_name ∈ mapped_tools →
  action ∉ adapter_actions tool_name →
  ∃ adapter,
    tool_mapping tool_name = Some adapter ∧
    adapter action parameters self =
    (Raise (mk_exn ValueError (unsupported_prefix tool_name ++ action)%string), self).
Proof.
  intros Hin Hact. unfold mapped_tools in Hin.
  repeat (apply elem_of_cons in Hin as [->|Hin]); [..|by apply elem_of_nil in Hin];
    eexists; (split; [reflexivity|]);
    unfold _call_real_database, _call_real_calculator, _call_real_search,
      _call_real_filesystem, _call_real_time;
    repeat case_bool_decide; subst; try done;
    exfalso; apply Hact; cbn; set_solver.
Qed.

Lemma tool_mapping_unmapped tool_name :
  tool_name ∉ mapped_tools → tool_mapping (E:=E) (P:=P) tool_name = None.
Proof.
  intros Hnot. unfold tool_mapping.
  repeat case_bool_decide; subst; try done;
    exfalso; apply Hnot; unfold mapped_tools; set_solver.
Qed.

(** Before it looks at the tool, the real path refuses to run without a
    real interface. *)
Lemma real_path_without_interface self tool_name action parameters :
  real_mcp_interface self = None →
  _call_real_mcp_tool tool_name action parameters self =
  (Raise (mk_exn RuntimeError "真实MCP接口未初始化"), self).
Proof.
  intros Hnone. unfold _call_real_mcp_tool, bind, get. by rewrite Hnone.
Qed.

(** C8. The adapter the real path maps a tool to rejects an action it does
    not recognize with a [ValueError] whose message is the "unsupported
    operation" text of the tool followed by the action, in every state of
    the manager.  On a manager whose real interface is initialized the real
    path called for a mapped tool with such an action raises that error and
    leaves the manager as it was, and called for a tool that is not mapped
    it is the generic [call_tool(action, parameters)] of the real
    interface. *)
Theorem real_path_unsupported_action self tool_name action parameters :
  (tool_name ∈ mapped_tools →
   action ∉ adapter_actions tool_name →
   ∃ adapter,
     tool_mapping tool_name = Some adapter ∧
     adapter action parameters self =
     (Raise (mk_exn ValueError (unsupported_prefix tool_name ++ action)%string),
      self)) ∧
  ∀ r,
    real_mcp_interface self = Some r →
    (tool_name ∈ mapped_tools →
     action ∉ adapter_actions tool_name →
     _call_real_mcp_tool tool_name action parameters self =
     (Raise (mk_exn ValueError (unsupported_prefix tool_name ++ action)%string),
      self)) ∧
    (tool_name ∉ mapped_tools →
     _call_real_mcp_tool tool_name action parameters self =
     on_real_interface (real_call_tool action parameters) self).
Proof.
  split; [apply adapter_rejects_unknown_action|].
  intros r Hreal. unfold _call_real_mcp_tool, bind, get. rewrite Hreal. split.
  - intros Hin Hact.
    destruct (adapter_rejects_unknown_action self tool_name action parameters
                Hin Hact) as (adapter & -> & Hraise).
    done.
  - intros Hnot. by rewrite tool_mapping_unmapped.
Qed.

(** ** The module-level instance *)

Lemma initialize_keeps_tool_mode self :
  tool_mode (snd (initialize self)) = tool_mode self.
Proof.
  unfold initialize, try_except, zoom, bind, get, raise, ret.
  destruct (initialize_real_interface (enhanced_tools self)) as [[[]|e] e']; [done|].
  cbn. destruct (exn_cls e); by case_decide.
Qed.

(** Once the global is set, a call returns it and changes nothing. *)
Lemma get_existing_manager (g : @ModuleState F E R P) mode a :
  _mcp_tools_manager_v2 g = Some a →
  get_mcp_tools_manager_v2 mode g = (Ok (Some a), g).
Proof.
  intros Hg. unfold get_mcp_tools_manager_v2, bind, get, ret. cbn.
  rewrite Hg. cbn. by rewrite Hg.
Qed.

Lemma get_existing_manager_calls (g : @ModuleState F E R P) modes a :
  _mcp_tools_manager_v2 g = Some a →
  get_manager_calls modes g = (map (fun _ => Ok (Some a)) modes, g).
Proof.
  intros Hg. induction modes as [|mode modes IH]; [done|].
  cbn [get_manager_calls map]. rewrite (get_existing_manager g mode a Hg).
  by rewrite IH.
Qed.

(** The first call constructs one manager with the mode it is given, and
    initializes it. *)
Lemma get_first_manager (g : @ModuleState F E R P) mode :
  _mcp_tools_manager_v2 g = None →
  let a := length (heap g) in
  let fresh := MCPToolsManagerV2_init mode in
  get_mcp_tools_manager_v2 mode g =
  (match fst (initialize fresh) with
   | Ok _ => Ok (Some a)
   | Raise e => Raise e
   end,
   mk_module_state (heap g ++ [snd (initialize fresh)]) (Some a)).
Proof.
  intros Hg. cbn zeta.
  unfold get_mcp_tools_manager_v2, bind at 1, get at 1. rewrite Hg.
  unfold bind, put, on_object, get, ret. cbn [heap _mcp_tools_manager_v2].
  rewrite lookup_app_r, Nat.sub_diag by done. cbn [lookup list_lookup].
  destruct (initialize (MCPToolsManagerV2_init mode)) as [[[]|e] obj'];
    cbn [fst snd heap _mcp_tools_manager_v2];
    by rewrite insert_app_r_alt, Nat.sub_diag by done.
Qed.

(** C10. From a module state in which the global is not set, a caller that
    asks for the manager with the modes [mode :: modes]: the first call
    allocates one manager, built with [mode], initializes it and either
    returns its address or raises what [initialize] raised; every later
    call returns that same address and changes nothing, whatever mode it is
    given; in the end one manager was allocated and its [tool_mode] is the
    mode of the first call. *)
Theorem manager_is_a_singleton (g : @ModuleState F E R P) mode modes :
  _mcp_tools_manager_v2 g = None →
  let a := length (heap g) in
  let first := get_mcp_tools_manager_v2 mode g in
  let all := get_manager_calls (mode :: modes) g in
  snd first =
    mk_module_state (heap g ++ [snd (initialize (MCPToolsManagerV2_init mode))])
      (Some a) ∧
  (fst first = Ok (Some a) ∨
   ∃ e, fst first = Raise e ∧
        fst (initialize (MCPToolsManagerV2_init mode)) = Raise e) ∧
  fst all = fst first :: map (fun _ => Ok (Some a)) modes ∧
  snd all = snd first ∧
  length (heap (snd all)) = S (length (heap g)) ∧
  ∃ obj, heap (snd all) !! a = Some obj ∧ tool_mode obj = mode.
Proof.
  intros Hg a first all. subst first all.
  cbn [get_manager_calls].
  pose proof (get_first_manager g mode Hg) as Hfirst. cbn zeta in Hfirst.
  fold a in Hfirst. rewrite Hfirst. cbn [fst snd].
  rewrite (get_existing_manager_calls _ modes a) by done. cbn [fst snd heap].
  split; [done|]. split.
  - destruct (fst (initialize (MCPToolsManagerV2_init mode))) as [[]|e];
      [by left|right; by exists e].
  - split; [done|]. split; [done|]. split.
    + rewrite length_app. cbn. lia.
    + eexists. split.
      * subst a. by rewrite lookup_app_r, Nat.sub_diag.
      * by rewrite initialize_keeps_tool_mode.
Qed.

End Properties.

(** ** The dispatch, on the dispatcher of the specification *)

Section DispatchProperties.

Context {F : Type} `{!FloatOps F}.
Context {Rb Pb R P : Type}.
Context `{!@CapabilityInterface F Rb, !@CapabilityInterface F Pb,
          !@DispatcherEnv F Rb Pb}.
Context `{!@MCPToolInterface F R, !@PlaceholderInterface F P}.

Implicit Types (d : @Dispatcher F Rb Pb).

Lemma attempt_outcome mode_used (c : M (@Dispatcher F Rb Pb) (@value F)) d :
  attempt mode_used c d =
  (Ok match fst (c d) with
      | Ok data => mk_attempt true data mode_used None
      | Raise e => mk_attempt false VNone mode_used (Some (str_exn e))
      end,
   snd (c d)).
Proof.
  unfold attempt, try_except, bind, ret. by destruct (c d) as [[data|e] d'].
Qed.

Lemma real_path_outcome tool_name action parameters d e :
  fst (real_path tool_name action parameters d) = Raise e ↔
  real_failure tool_name action parameters d e.
Proof.
  unfold real_path, real_failure. destruct (d_real d) as [r|].
  - by destruct (capability_call tool_name action parameters r) as [o r'].
  - cbn. split; congruence.
Qed.

Lemma real_path_keeps_placeholder tool_name action parameters d :
  d_placeholder (snd (real_path tool_name action parameters d)) = d_placeholder d.
Proof.
  unfold real_path. destruct (d_real d) as [r|]; [|done].
  by destruct (capability_call tool_name action parameters r) as [o r'].
Qed.

Lemma placeholder_path_outcome tool_name action parameters d e :
  fst (placeholder_path tool_name action parameters d) = Raise e ↔
  placeholder_failure tool_name action parameters d e.
Proof.
  unfold placeholder_path, placeholder_failure, zoom.
  by destruct (capability_call tool_name action parameters (d_placeholder d))
    as [o p'].
Qed.

(** The Mode Resolver never raises, and its attempt fails exactly on an error
    of the backend the mode leaves it with. *)
Lemma resolve_outcome tool_name action parameters d :
  ∃ a d',
    resolve (d_mode d) tool_name action parameters d = (Ok a, d') ∧
    (∀ e, backend_error tool_name action parameters d e →
          a_success a = false ∧ a_error a = Some (str_exn e)) ∧
    (a_success a = false →
     ∃ e, backend_error tool_name action parameters d e).
Proof.
  unfold resolve, backend_error. destruct (d_mode d).
  - rewrite attempt_outcome. do 2 eexists. split; [done|]. split.
    + intros e He. apply real_path_outcome in He. by rewrite He.
    + destruct (fst (real_path _ _ _ d)) as [data|e] eqn:Hr; [done|].
      intros _. exists e. by apply real_path_outcome.
  - rewrite attempt_outcome. do 2 eexists. split; [done|]. split.
    + intros e He. apply placeholder_path_outcome in He. by rewrite He.
    + destruct (fst (placeholder_path _ _ _ d)) as [data|e] eqn:Hp; [done|].
      intros _. exists e. by apply placeholder_path_outcome.
  - unfold bind. rewrite attempt_outcome.
    destruct (fst (real_path tool_name action parameters d)) as [data|e1] eqn:Hr;
      cbn [a_success].
    + do 2 eexists. split; [done|]. split; [|done].
      intros e [[e' He'] _]. apply real_path_outcome in He'. congruence.
    + rewrite attempt_outcome. do 2 eexists. split; [done|].
      assert (∀ e,
        fst (placeholder_path tool_name action parameters
               (snd (real_path tool_name action parameters d))) = Raise e ↔
        placeholder_failure tool_name action parameters d e) as Hp.
      { intros e. rewrite placeholder_path_outcome. unfold placeholder_failure.
        by rewrite real_path_keeps_placeholder. }
      split.
      * intros e [_ He]. apply Hp in He. by rewrite He.
      * destruct (fst (placeholder_path _ _ _ _)) as [data|e] eqn:Hpp; [done|].
        intros _. exists e. split; [|by apply Hp].
        exists e1. by apply real_path_outcome.
Qed.

(** The dispatch of the specification never raises. *)
Lemma dispatch_outcome tool_name action parameters d :
  ∃ er d',
    dispatch tool_name action parameters d = (Ok er, d') ∧
    (∀ e, backend_error tool_name action parameters d e →
          er_success er = false ∧ er_error er = Some (str_exn e)) ∧
    (er_success er = false →
     ∃ e, backend_error tool_name action parameters d e).
Proof.
  unfold dispatch, bind at 1, now at 1, bind at 1, get.
  set (d1 := mk_dispatcher (d_mode d) (d_real d) (d_placeholder d)
               (S (d_ticks d)) (d_events d)).
  destruct (resolve_outcome tool_name action parameters d1)
    as (a & d2 & Hres & Hfail & Hcause).
  change (mk_dispatcher (d_mode d) (d_real d) (d_placeholder d)
            (S (d_ticks d)) (d_events d)) with d1.
  unfold bind at 1. rewrite Hres.
  unfold bind, now, record_event, modify, ret. do 2 eexists.
  split; [done|]. cbn [er_success er_error]. split; [apply Hfail|apply Hcause].
Qed.

Lemma real_path_keeps_events tool_name action parameters d :
  d_events (snd (real_path tool_name action parameters d)) = d_events d.
Proof.
  unfold real_path. destruct (d_real d) as [r|]; [|done].
  by destruct (capability_call tool_name action parameters r) as [o r'].
Qed.

Lemma placeholder_path_keeps_events tool_name action parameters d :
  d_events (snd (placeholder_path tool_name action parameters d)) = d_events d.
Proof.
  unfold placeholder_path, zoom.
  by destruct (capability_call tool_name action parameters (d_placeholder d))
    as [o p'].
Qed.

Lemma resolve_keeps_events mode tool_name action parameters d :
  d_events (snd (resolve mode tool_name action parameters d)) = d_events d.
Proof.
  unfold resolve. destruct mode.
  - rewrite attempt_outcome. apply real_path_keeps_events.
  - rewrite attempt_outcome. apply placeholder_path_keeps_events.
  - unfold bind. rewrite attempt_outcome.
    destruct (fst (real_path tool_name action parameters d)); cbn [a_success].
    + apply real_path_keeps_events.
    + rewrite attempt_outcome. cbn [snd].
      rewrite placeholder_path_keeps_events. apply real_path_keeps_events.
Qed.

(** The dispatch of the specification records one event in its own tracker,
    with the tool, the final success flag and the duration it returns. *)
Lemma dispatch_records_one_event tool_name action parameters d er d' :
  dispatch tool_name action parameters d = (Ok er, d') →
  d_events d' =
  (d_events d ++ [(tool_name, er_success er, er_execution_time er)])%list.
Proof.
  unfold dispatch, bind at 1, now at 1, bind at 1, get.
  set (d1 := mk_dispatcher (d_mode d) (d_real d) (d_placeholder d)
               (S (d_ticks d)) (d_events d)).
  pose proof (resolve_keeps_events (d_mode d1) tool_name action parameters d1)
    as Hev.
  unfold bind at 1.
  destruct (resolve (d_mode d1) tool_name action parameters d1) as [[a|e] d2];
    [|discriminate].
  unfold bind, now, record_event, modify, ret. intros [= <- <-].
  cbn [d_events er_success er_execution_time]. cbn [snd] in Hev.
  by rewrite Hev.
Qed.

(** C2. With the dispatcher of the specification behind [enhanced_tools],
    [call_tool_smart] returns a [ToolCallResult] for every tool, action and
    parameters and in every state, and raises nothing; an error of the
    backend the mode leaves it with becomes [success = False] with the text
    of that error, and there is no other cause of [success = False]; in
    particular in real mode with a real interface that was never initialized
    the result is a failure that says so. *)
Theorem dispatch_never_raises
    (self : @MCPToolsManagerV2 F (@Dispatcher F Rb Pb) R P)
    tool_name action parameters :
  ∃ r self',
    call_tool_smart tool_name action parameters self = (Ok r, self') ∧
    (∀ e, backend_error tool_name action parameters (enhanced_tools self) e →
          tcr_success r = false ∧ tcr_error r = Some (str_exn e)) ∧
    (tcr_success r = false →
     ∃ e, backend_error tool_name action parameters (enhanced_tools self) e) ∧
    (d_mode (enhanced_tools self) = EM_REAL →
     d_real (enhanced_tools self) = None →
     tcr_success r = false ∧ tcr_error r = Some "真实MCP接口未初始化").
Proof.
  destruct (dispatch_outcome tool_name action parameters (enhanced_tools self))
    as (er & d' & Hd & Hfail & Hcause).
  unfold call_tool_smart, bind, zoom, ret.
  cbn [call_tool Dispatcher_tools]. rewrite Hd.
  do 2 eexists. split; [done|].
  cbn [tcr_success tcr_error]. split; [done|]. split; [done|].
  intros Hmode Hreal.
  apply (Hfail (mk_exn RuntimeError "真实MCP接口未初始化")).
  unfold backend_error, real_failure. by rewrite Hmode, Hreal.
Qed.

End DispatchProperties.

(** * Properties of the rest of the manager *)

Section OperationProperties.

Local Open Scope Z_scope.
Local Open Scope list_scope.

Context {F : Type} `{!FloatOps F, !FloatCompare F}.
Context {E R P : Type}.
Context `{!@EnhancedMCPTools F E, !@MCPToolInterface F R, !@PlaceholderInterface F P}.
Context `{!@MCPToolsManager F R P}.
Context `{!@EnhancedReporting F E, !@InterfaceMaintenance F R}.

Implicit Types (self : @MCPToolsManagerV2 F E R P).
Implicit Types (d : gmap string (@Stats F)).

(** ** The performance statistics, from any dict *)

Lemma next_stats_ok success x (st : @Stats F) :
  st = fresh_stats ∨ stats_ok st → stats_ok (next_stats success x st).
Proof.
  unfold stats_ok, next_stats. intros [->|(Ht & Hs & Hf & Hsum & _)]; cbn;
    destruct success; repeat split; lia.
Qed.

Lemma update_stats_returns self tool_name success x :
  total_calls (default fresh_stats (tool_performance_stats self !! tool_name))
    ≠ -1 →
  _update_performance_stats tool_name success x self =
  (Ok tt,
   set_tool_performance_stats
     (<[tool_name := next_stats success x
                       (default fresh_stats
                          (tool_performance_stats self !! tool_name))]>
        (tool_performance_stats self))
     self).
Proof.
  intros Hne. unfold _update_performance_stats, zoom.
  by rewrite update_performance_stats_step.
Qed.

(** X3. The invariant of the statistics is inductive: on a dict in which
    every entry has positive [total_calls], counters that are not negative
    and add up to it, and the stored quotient as average, a call of
    [_update_performance_stats] for a tool whose count, once incremented,
    is still in the range of a double returns, leaves a dict with the same
    property, counts one more call for its tool and leaves the entries of
    the other tools and the rest of the manager as they were. *)
Theorem stats_invariant_is_inductive self tool_name success x :
  (∀ k st, tool_performance_stats self !! k = Some st → stats_ok st) →
  fits_double
    (total_calls (default fresh_stats (tool_performance_stats self !! tool_name))
     + 1) →
  ∃ d',
    _update_performance_stats tool_name success x self =
      (Ok tt, set_tool_performance_stats d' self) ∧
    (∀ k st, d' !! k = Some st → stats_ok st) ∧
    (∀ k, k ≠ tool_name → d' !! k = tool_performance_stats self !! k) ∧
    recorded_calls tool_name (set_tool_performance_stats d' self) =
      recorded_calls tool_name self + 1.
Proof.
  intros Hok _. unfold _update_performance_stats, zoom.
  rewrite update_performance_stats_step.
  2:{ destruct (tool_performance_stats self !! tool_name) as [st|] eqn:Hst; cbn.
      - destruct (Hok _ _ Hst) as (Ht & _). lia.
      - lia. }
  eexists. split; [done|]. split; [|split].
  - intros k st. destruct (decide (k = tool_name)) as [->|Hk].
    + rewrite lookup_insert_eq. intros [= <-]. apply next_stats_ok.
      destruct (tool_performance_stats self !! tool_name) as [st|] eqn:Hst; cbn.
      * right. by eapply Hok.
      * by left.
    + rewrite lookup_insert_ne by done. apply Hok.
  - intros k Hk. by rewrite lookup_insert_ne.
  - unfold recorded_calls. cbn. by rewrite lookup_insert_eq.
Qed.

(** X4. For a tool whose count, once incremented, is in the range of a
    double, [_update_performance_stats] returns unless the entry of the
    tool holds [total_calls = -1]; then the division raises
    [ZeroDivisionError] after the two additions: the entry is left with
    [total_calls = 0] and the duration added, its average and its success
    and failure counters not updated. *)
Theorem update_raises_only_on_zero_total self tool_name success x :
  (fits_double
     (total_calls
        (default fresh_stats (tool_performance_stats self !! tool_name)) + 1) →
   total_calls (default fresh_stats (tool_performance_stats self !! tool_name))
     ≠ -1 →
   fst (_update_performance_stats tool_name success x self) = Ok tt) ∧
  (∀ st,
     tool_performance_stats self !! tool_name = Some st →
     total_calls st = -1 →
     _update_performance_stats tool_name success x self =
     (Raise (mk_exn ZeroDivisionError "float division by zero"),
      set_tool_performance_stats
        (<[tool_name := mk_stats 0 (successful_calls st) (failed_calls st)
                          (fadd (total_execution_time st) x)
                          (average_execution_time st)]>
           (tool_performance_stats self))
        self)).
Proof.
  split.
  - intros _ Hne. unfold _update_performance_stats, zoom.
    by rewrite update_performance_stats_step.
  - intros st Hst Hminus. unfold _update_performance_stats, zoom.
    unfold update_performance_stats, bind, get, put, ret, alter_stats,
      modify, read_stats, truediv, raise.
    repeat first [progress cbn | rewrite Hst | rewrite lookup_alter_eq].
    rewrite Hminus. cbn. f_equal. f_equal. apply map_eq. intros k.
    destruct (decide (k = tool_name)) as [->|Hk].
    + rewrite !lookup_alter_eq, lookup_insert_eq, Hst. cbn. by rewrite Hminus.
    + by rewrite !lookup_alter_ne, lookup_insert_ne.
Qed.

(** X5. Calls recorded for two different tools commute: when the counts of
    both, once incremented, are in the range of a double and not zero,
    recorded in either order they return and leave the same manager. *)
Theorem updates_of_different_tools_commute self t1 s1 x1 t2 s2 x2 :
  t1 ≠ t2 →
  fits_double
    (total_calls (default fresh_stats (tool_performance_stats self !! t1)) + 1) →
  fits_double
    (total_calls (default fresh_stats (tool_performance_stats self !! t2)) + 1) →
  total_calls (default fresh_stats (tool_performance_stats self !! t1)) ≠ -1 →
  total_calls (default fresh_stats (tool_performance_stats self !! t2)) ≠ -1 →
  (_update_performance_stats t1 s1 x1 ;;; _update_performance_stats t2 s2 x2) self =
  (_update_performance_stats t2 s2 x2 ;;; _update_performance_stats t1 s1 x1) self ∧
  fst ((_update_performance_stats t1 s1 x1 ;;;
        _update_performance_stats t2 s2 x2) self) = Ok tt.
Proof.
  intros Hne _ _ Hfirst Hsecond. unfold bind.
  rewrite (update_stats_returns self t1), (update_stats_returns self t2) by done.
  rewrite !update_stats_returns
    by (cbn; rewrite lookup_insert_ne by done; done).
  cbn. rewrite !lookup_insert_ne by done. split; [|done].
  f_equal. unfold set_tool_performance_stats. cbn. f_equal.
  by apply insert_insert_ne.
Qed.

(** X17. The entry of a tool depends on the calls recorded for that tool
    only: two sequences of calls on managers without statistics that agree
    on the calls of a tool, however they interleave those of other tools,
    leave the same entry for it, and its [total_execution_time] is the sum
    of the durations of its calls. *)
Theorem stats_depend_on_own_calls self self0
    (cs cs' : list (string * bool * F)) tool_name :
  tool_performance_stats self = ∅ →
  tool_performance_stats self0 = ∅ →
  calls_of tool_name cs = calls_of tool_name cs' →
  tool_performance_stats (snd (record_calls cs self)) !! tool_name =
    tool_performance_stats (snd (record_calls cs' self0)) !! tool_name ∧
  ∀ st,
    tool_performance_stats (snd (record_calls cs self)) !! tool_name = Some st →
    total_execution_time st = sum_durations (map snd (calls_of tool_name cs)).
Proof.
  intros Hempty Hempty0 Hsame.
  destruct (record_calls_history self cs Hempty) as (self1 & -> & Hent).
  destruct (record_calls_history self0 cs' Hempty0) as (self2 & -> & Hent').
  cbn [snd]. rewrite Hent, Hent', Hsame. split; [done|].
  intros st. rewrite <- Hsame. destruct (calls_of tool_name cs); [done|].
  by intros [= <-].
Qed.

(** ** Construction, initialization and the conversion of results *)

Lemma initialize_outside_real_mode self :
  tool_mode self ≠ REAL_MCP → fst (initialize self) = Ok tt.
Proof.
  intros Hmode. unfold initialize, try_except, zoom, bind, get, raise, ret.
  destruct (initialize_real_interface (enhanced_tools self)) as [[[]|e] e'];
    [done|].
  cbn. destruct (exn_cls e); by case_decide.
Qed.

Lemma initialize_frame self :
  snd (initialize self) =
  set_enhanced_tools (snd (initialize_real_interface (enhanced_tools self))) self.
Proof.
  unfold initialize, try_except, zoom, bind, get, raise, ret.
  destruct (initialize_real_interface (enhanced_tools self)) as [[[]|e] e'];
    [done|].
  cbn. destruct (exn_cls e); by case_decide.
Qed.

(** X2. [initialize] in hybrid or placeholder mode returns whatever the
    initialization of the real interface does; in real mode it returns
    exactly when that initialization returns, turns its [ImportError] into
    the [RuntimeError] that asks for the MCP dependency and raises any
    other exception unchanged.  Only the enhanced tools change. *)
Theorem initialize_outcome self :
  let inner := initialize_real_interface (enhanced_tools self) in
  snd (initialize self) = set_enhanced_tools (snd inner) self ∧
  (tool_mode self ≠ REAL_MCP → fst (initialize self) = Ok tt) ∧
  (fst inner = Ok tt → fst (initialize self) = Ok tt) ∧
  (∀ e,
     tool_mode self = REAL_MCP →
     fst inner = Raise e →
     fst (initialize self) =
     Raise match exn_cls e with
           | ImportError => mk_exn RuntimeError "真实MCP模式需要安装MCP依赖"
           | _ => e
           end).
Proof.
  cbn zeta. unfold initialize, try_except, zoom, bind, get, raise, ret.
  destruct (initialize_real_interface (enhanced_tools self)) as [[[]|e] e'];
    cbn [fst snd].
  - repeat split; try done.
  - split; [destruct (exn_cls e); by case_decide|].
    split; [intros Hmode; destruct (exn_cls e); by case_decide|].
    split; [done|]. intros e0 Hmode [= <-].
    change (tool_mode (set_enhanced_tools e' self)) with (tool_mode self).
    destruct (exn_cls e) eqn:Hcls; rewrite Hmode; by case_decide.
Qed.

(** X6. In hybrid or placeholder mode the first call of the accessor
    returns the manager it constructed, whatever the initialization of the
    real interface does. In real mode a failed initialization makes it
    raise, and the next call, whatever its mode, returns the manager that
    was left, without initializing it again. *)
Theorem accessor_and_failed_initialization
    (g : @ModuleState F E R P) mode mode' :
  _mcp_tools_manager_v2 g = None →
  let a := length (heap g) in
  let attempt := initialize (MCPToolsManagerV2_init mode) in
  (mode ≠ REAL_MCP →
   fst (get_mcp_tools_manager_v2 mode g) = Ok (Some a)) ∧
  (∀ e,
     fst attempt = Raise e →
     fst (get_mcp_tools_manager_v2 mode g) = Raise e ∧
     get_mcp_tools_manager_v2 mode' (snd (get_mcp_tools_manager_v2 mode g)) =
       (Ok (Some a), snd (get_mcp_tools_manager_v2 mode g)) ∧
     heap (snd (get_mcp_tools_manager_v2 mode g)) !! a = Some (snd attempt)).
Proof.
  intros Hg. cbn zeta.
  pose proof (get_first_manager g mode Hg) as Hfirst. cbn zeta in Hfirst.
  rewrite Hfirst. cbn [fst snd]. split.
  - intros Hmode. by rewrite initialize_outside_real_mode.
  - intros e He. rewrite He. split; [done|]. split.
    + by apply get_existing_manager.
    + cbn [heap]. by rewrite lookup_app_r, Nat.sub_diag.
Qed.

(** ** The real path and the placeholder path *)

Lemma on_real_interface_frame {A} (c : M R A) self :
  ∃ r',
    snd (on_real_interface c self) = set_real_mcp_interface r' self ∧
    (is_Some r' ↔ is_Some (real_mcp_interface self)).
Proof.
  unfold on_real_interface. destruct self as [m e st w [r|] ph]; cbn.
  - destruct (c r) as [o r']. exists (Some r'). split; [done|].
    split; by eexists.
  - exists None. done.
Qed.

Lemma raise_frame {A} (e : exn) self :
  ∃ r',
    snd (raise (A:=A) e self) = set_real_mcp_interface r' self ∧
    (is_Some r' ↔ is_Some (real_mcp_interface self)).
Proof. exists (real_mcp_interface self). by destruct self. Qed.

Lemma real_path_frame self tool_name action parameters :
  ∃ r',
    snd (_call_real_mcp_tool tool_name action parameters self) =
      set_real_mcp_interface r' self ∧
    (is_Some r' ↔ is_Some (real_mcp_interface self)).
Proof.
  unfold _call_real_mcp_tool, bind, get.
  destruct (real_mcp_interface self) as [r|] eqn:Hreal;
    [|rewrite <- Hreal; apply raise_frame].
  unfold tool_mapping.
  repeat case_bool_decide;
    unfold _call_real_database, _call_real_calculator, _call_real_search,
      _call_real_filesystem, _call_real_time;
    repeat case_bool_decide;
    rewrite <- ?Hreal;
    first [apply on_real_interface_frame | apply raise_frame].
Qed.

Lemma placeholder_path_frame self tool_name action parameters :
  ∃ p',
    snd (_call_placeholder_tool tool_name action parameters self) =
      set_placeholder_interface p' self.
Proof.
  unfold _call_placeholder_tool, zoom.
  destruct (placeholder_call_tool _ _ _ _) as [o p']. by exists p'.
Qed.

(** X7. The real path changes nothing of the manager but the state of the
    real interface, which stays initialized or absent as it was; the
    placeholder path changes nothing but the state of the placeholder
    interface. *)
Theorem paths_change_their_interface_only self tool_name action parameters :
  (∃ r',
     snd (_call_real_mcp_tool tool_name action parameters self) =
       set_real_mcp_interface r' self ∧
     (is_Some r' ↔ is_Some (real_mcp_interface self))) ∧
  (∃ p',
     snd (_call_placeholder_tool tool_name action parameters self) =
       set_placeholder_interface p' self).
Proof.
  split; [apply real_path_frame|apply placeholder_path_frame].
Qed.

(** The real path reads its parameters through the [get] of its adapter
    only. *)
Lemma real_path_reads_defaults self tool_name action
    (parameters parameters' : gmap string (@value F)) :
  tool_name ∈ mapped_tools →
  (∀ k dv, (k, dv) ∈ adapter_defaults tool_name action →
           params_get parameters k dv = params_get parameters' k dv) →
  _call_real_mcp_tool tool_name action parameters self =
  _call_real_mcp_tool tool_name action parameters' self.
Proof.
  intros Hin Hagree. unfold _call_real_mcp_tool, bind, get.
  destruct (real_mcp_interface self) as [r|]; [|done].
  unfold mapped_tools in Hin.
  repeat (apply elem_of_cons in Hin as [->|Hin]); [..|by apply elem_of_nil in Hin];
    cbn [tool_mapping bool_decide decide_rel] in *;
    unfold tool_mapping, adapter_defaults in *;
    repeat (case_bool_decide; try done);
    unfold _call_real_database, _call_real_calculator, _call_real_search,
      _call_real_filesystem, _call_real_time;
    repeat (case_bool_decide; try done);
    repeat match goal with
    | |- context [params_get parameters ?k ?dv] =>
        rewrite (Hagree k dv) by (repeat constructor)
    end; done.
Qed.

(** X8. For a mapped tool the real path depends on the parameters only
    through the keys its adapter reads: two dicts that agree on them give
    the same outcome and the same manager. *)
Theorem real_path_ignores_other_keys self tool_name action
    (parameters parameters' : gmap string (@value F)) :
  tool_name ∈ mapped_tools →
  (∀ k (dv : @value F), (k, dv) ∈ adapter_defaults tool_name action →
           parameters !! k = parameters' !! k) →
  _call_real_mcp_tool tool_name action parameters self =
  _call_real_mcp_tool tool_name action parameters' self.
Proof.
  intros Hin Hagree. apply real_path_reads_defaults; [done|].
  intros k dv Hk. unfold params_get. by rewrite (Hagree k dv Hk).
Qed.

Lemma adapter_defaults_cases tool_name action k (dv : @value F) :
  (k, dv) ∈ adapter_defaults tool_name action →
  (tool_name = "database_sqlite" ∧ action = "query" ∧ k = "sql" ∧ dv = VStr "") ∨
  (tool_name = "calculator" ∧ action = "calculate" ∧ k = "expression" ∧
   dv = VStr "") ∨
  (tool_name = "brave_search" ∧ action = "search" ∧ k = "query" ∧ dv = VStr "") ∨
  (tool_name = "brave_search" ∧ action = "search" ∧ k = "count" ∧ dv = VInt 5) ∨
  (tool_name = "filesystem" ∧ action = "read_file" ∧ k = "path" ∧ dv = VStr "") ∨
  (tool_name = "filesystem" ∧ action = "write_file" ∧ k = "path" ∧ dv = VStr "") ∨
  (tool_name = "filesystem" ∧ action = "write_file" ∧ k = "content" ∧
   dv = VStr "").
Proof.
  unfold adapter_defaults. intros Hk.
  repeat (case_bool_decide; subst);
    repeat (apply elem_of_cons in Hk as [[= -> ->]|Hk]);
    try (by apply elem_of_nil in Hk); tauto.
Qed.

(** X9. A key the adapter reads and the parameters do not have counts as its
    default: the empty string for [sql], [expression], [query], [path] and
    [content], and [5] for [count]. *)
Theorem real_path_missing_key_is_default self tool_name action
    (parameters : gmap string (@value F)) k dv :
  (k, dv) ∈ adapter_defaults tool_name action →
  parameters !! k = None →
  (dv = if bool_decide (k = "count") then VInt 5 else VStr "") ∧
  tool_name ∈ mapped_tools ∧
  _call_real_mcp_tool tool_name action parameters self =
  _call_real_mcp_tool tool_name action (<[k := dv]> parameters) self.
Proof.
  intros Hk Hnone.
  assert (Hkeys : ∀ k' dv', (k', dv') ∈ adapter_defaults tool_name action →
            (dv' = if bool_decide (k' = "count") then VInt 5 else VStr "") ∧
            tool_name ∈ mapped_tools ∧
            (k' = k → dv' = dv)).
  { intros k' dv' Hk'.
    destruct (adapter_defaults_cases _ _ _ _ Hk)
      as [(-> & -> & -> & ->)|[(-> & -> & -> & ->)|[(-> & -> & -> & ->)|
         [(-> & -> & -> & ->)|[(-> & -> & -> & ->)|[(-> & -> & -> & ->)|
          (-> & -> & -> & ->)]]]]]];
    destruct (adapter_defaults_cases _ _ _ _ Hk')
      as [(? & ? & -> & ->)|[(? & ? & -> & ->)|[(? & ? & -> & ->)|
         [(? & ? & -> & ->)|[(? & ? & -> & ->)|[(? & ? & -> & ->)|
          (? & ? & -> & ->)]]]]]];
    try discriminate;
    (split; [done|]); (split; [by repeat constructor|]); by intros [=]. }
  destruct (Hkeys k dv Hk) as (Hdv & Hin & _).
  split; [done|]. split; [done|].
  apply real_path_reads_defaults; [done|].
  intros k' dv' Hk'. unfold params_get.
  destruct (decide (k' = k)) as [->|Hne].
  - destruct (Hkeys k dv' Hk') as (_ & _ & Heq). rewrite (Heq eq_refl).
    by rewrite Hnone, lookup_insert_eq.
  - by rewrite lookup_insert_ne.
Qed.

(** ** The workflow runner and the registry *)

Lemma call_tool_smart_frame self tool_name action parameters :
  snd (call_tool_smart tool_name action parameters self) =
  set_enhanced_tools
    (snd (call_tool tool_name action parameters (enhanced_tools self))) self.
Proof.
  unfold call_tool_smart, bind, zoom, ret.
  by destruct (call_tool tool_name action parameters (enhanced_tools self))
    as [[er|e] e'].
Qed.

Lemma stored_step_unchanged user_input (step : @Step F) :
  call_parameters step user_input = default ∅ (step_parameters step) →
  stored_step user_input step = step.
Proof.
  unfold stored_step. destruct step as [t a [parameters|]]; cbn; [|done].
  by intros ->.
Qed.

(** The substitution of a step writes the dict it dispatches into the
    registered configuration, at the place of the step. *)
Lemma step_call_parameters_registry
    workflow_name user_input self cfg pre (step : @Step F) rest :
  workflows self !! workflow_name = Some cfg →
  tools cfg = pre ++ step :: rest →
  snd (step_call_parameters workflow_name (length pre) step user_input self) =
  set_workflows
    (<[workflow_name :=
         mk_workflow_config (pre ++ stored_step user_input step :: rest)]>
       (workflows self))
    self.
Proof.
  intros Hcfg Htools.
  assert (Hsame : stored_step user_input step = step →
            self =
            set_workflows
              (<[workflow_name :=
                   mk_workflow_config
                     (pre ++ stored_step user_input step :: rest)]>
                 (workflows self)) self).
  { intros ->. rewrite <- Htools. destruct cfg as [ts]. cbn.
    rewrite insert_id by done. by destruct self. }
  unfold step_call_parameters.
  destruct (step_parameters step) as [parameters|] eqn:Hp.
  2:{ apply Hsame, stored_step_unchanged. unfold call_parameters.
      by rewrite Hp. }
  destruct (parameters !! "user_input") as [v|] eqn:Hv.
  2:{ apply Hsame, stored_step_unchanged. unfold call_parameters.
      by rewrite Hp, Hv. }
  destruct (eq_str v "{{user_input}}") eqn:Heq.
  2:{ apply Hsame, stored_step_unchanged. unfold call_parameters.
      by rewrite Hp, Hv, Heq. }
  unfold bind, store_step_parameters, modify, ret. cbn [snd]. f_equal.
  apply map_eq. intros k. destruct (decide (k = workflow_name)) as [->|Hk].
  - rewrite lookup_alter_eq, lookup_insert_eq, Hcfg. cbn. f_equal. f_equal.
    rewrite Htools, alter_app_r_alt, Nat.sub_diag by done. cbn. f_equal.
    unfold stored_step, call_parameters. by rewrite Hp, Hv, Heq.
  - by rewrite lookup_alter_ne, lookup_insert_ne.
Qed.

(** The manager a run of the steps leaves: the registry holds the stored
    steps, and nothing else changed but the enhanced tools. *)
Lemma dispatch_trace_registry workflow_name user_input (steps : list (@Step F)) :
  ∀ pre self cfg,
    workflows self !! workflow_name = Some cfg →
    tools cfg = pre ++ steps →
    let self' :=
      snd (dispatch_trace workflow_name user_input (length pre) steps self) in
    workflows self' =
      <[workflow_name :=
          mk_workflow_config (pre ++ map (stored_step user_input) steps)]>
        (workflows self) ∧
    tool_mode self' = tool_mode self ∧
    tool_performance_stats self' = tool_performance_stats self ∧
    real_mcp_interface self' = real_mcp_interface self ∧
    placeholder_interface self' = placeholder_interface self.
Proof.
  induction steps as [|step rest IH]; intros pre self cfg Hcfg Htools; cbn zeta.
  - cbn. rewrite <- Htools. destruct cfg as [ts]. cbn.
    by rewrite insert_id.
  - cbn [dispatch_trace].
    rewrite (step_call_parameters_registry _ _ _ cfg pre step rest) by done.
    set (self1 := set_workflows _ self).
    pose proof (call_tool_smart_frame self1 (step_tool step) (step_action step)
                  (call_parameters step user_input)) as Hframe.
    destruct (call_tool_smart (step_tool step) (step_action step)
                (call_parameters step user_input) self1) as [o self2].
    cbn [snd] in Hframe.
    specialize (IH (pre ++ [stored_step user_input step]) self2
                  (mk_workflow_config
                     (pre ++ stored_step user_input step :: rest))).
    rewrite length_app, Nat.add_1_r in IH.
    destruct (dispatch_trace workflow_name user_input (S (length pre)) rest self2)
      as [tr self3].
    cbn [snd] in *. subst self2.
    destruct IH as (Hw & Hm & Hs & Hr & Hp).
    + subst self1. cbn. by rewrite lookup_insert_eq.
    + cbn. by rewrite <- app_assoc.
    + rewrite Hw, Hm, Hs, Hr, Hp. subst self1. cbn.
      rewrite insert_insert_eq, <- app_assoc. done.
Qed.

(** X10. [execute_workflow_v2], for a registered workflow or not, leaves the
    mode, the statistics, the real interface and the placeholder interface
    of the manager as they were, and keeps the names of the registry. *)
Theorem workflow_run_frame self workflow_name user_input context :
  let self' := snd (execute_workflow_v2 workflow_name user_input context self) in
  tool_mode self' = tool_mode self ∧
  tool_performance_stats self' = tool_performance_stats self ∧
  real_mcp_interface self' = real_mcp_interface self ∧
  placeholder_interface self' = placeholder_interface self ∧
  ∀ name, is_Some (workflows self' !! name) ↔ is_Some (workflows self !! name).
Proof.
  cbn zeta. destruct (workflows self !! workflow_name) as [cfg|] eqn:Hcfg.
  - rewrite (execute_workflow_v2_found _ _ _ _ cfg) by done. cbn [snd].
    destruct (dispatch_trace_registry workflow_name user_input (tools cfg)
                [] self cfg Hcfg eq_refl) as (Hw & Hm & Hs & Hr & Hp).
    cbn [length] in *. split; [done|]. split; [done|]. split; [done|].
    split; [done|]. intros name. rewrite Hw.
    destruct (decide (name = workflow_name)) as [->|Hne].
    + rewrite lookup_insert_eq, Hcfg. split; by eexists.
    + by rewrite lookup_insert_ne.
  - unfold execute_workflow_v2, bind, get. rewrite Hcfg. done.
Qed.

(** X11. A run writes into the registry: after [execute_workflow_v2] on a
    registered workflow, its configuration has the same steps with the same
    tools and actions, and the parameters of a step that had some are the
    dict the run dispatched for it, the substituted one included. *)
Theorem workflow_run_rewrites_registry
    self workflow_name user_input context cfg :
  workflows self !! workflow_name = Some cfg →
  let self' := snd (execute_workflow_v2 workflow_name user_input context self) in
  ∃ cfg',
    workflows self' !! workflow_name = Some cfg' ∧
    length (tools cfg') = length (tools cfg) ∧
    ∀ (j : nat) step,
      tools cfg !! j = Some step →
      ∃ step',
        tools cfg' !! j = Some step' ∧
        step_tool step' = step_tool step ∧
        step_action step' = step_action step ∧
        step_parameters step' =
          match step_parameters step with
          | None => None
          | Some _ => Some (call_parameters step user_input)
          end.
Proof.
  intros Hcfg. cbn zeta.
  rewrite (execute_workflow_v2_found _ _ _ _ cfg) by done. cbn [snd].
  destruct (dispatch_trace_registry workflow_name user_input (tools cfg)
              [] self cfg Hcfg eq_refl) as (Hw & _).
  cbn [length app] in Hw. rewrite Hw, lookup_insert_eq.
  eexists. split; [done|]. cbn [tools]. split; [by rewrite length_map|].
  intros j step Hj. exists (stored_step user_input step).
  change (map ?f ?l) with (f <$> l). rewrite list_lookup_fmap, Hj. done.
Qed.

Lemma call_parameters_stored user_input user_input' (step : @Step F) :
  user_input ≠ "{{user_input}}" →
  call_parameters (stored_step user_input step) user_input' =
  call_parameters step user_input.
Proof.
  intros Hne. unfold stored_step, call_parameters at 1. cbn.
  destruct (step_parameters step) as [parameters|] eqn:Hp;
    [|unfold call_parameters; by rewrite Hp].
  unfold call_parameters. rewrite Hp.
  destruct (parameters !! "user_input") as [v|] eqn:Hv; [|by rewrite Hv].
  destruct (eq_str v "{{user_input}}") eqn:Heq.
  - rewrite lookup_insert_eq. cbn. by rewrite bool_decide_eq_false_2.
  - by rewrite Hv, Heq.
Qed.

(** X12. The first input sticks: after a run of a registered workflow with
    a [user_input] that is not itself the template, a second run, whatever
    its [user_input], dispatches every step with the parameters of the
    first run. *)
Theorem first_user_input_sticks
    self workflow_name user_input context user_input' context' cfg :
  workflows self !! workflow_name = Some cfg →
  user_input ≠ "{{user_input}}" →
  let self1 := snd (execute_workflow_v2 workflow_name user_input context self) in
  ∃ cfg1 r2,
    workflows self1 !! workflow_name = Some cfg1 ∧
    execute_workflow_v2 workflow_name user_input' context' self1 =
      (Ok r2,
       snd (dispatch_trace workflow_name user_input' 0 (tools cfg1) self1)) ∧
    map (fun c : Dispatched => snd (fst c))
      (fst (dispatch_trace workflow_name user_input' 0 (tools cfg1) self1)) =
    map (fun step => call_parameters step user_input) (tools cfg).
Proof.
  intros Hcfg Hne. cbn zeta.
  rewrite (execute_workflow_v2_found self _ _ _ cfg) by done. cbn [snd].
  destruct (dispatch_trace_registry workflow_name user_input (tools cfg)
              [] self cfg Hcfg eq_refl) as (Hw & _).
  cbn [length app] in Hw.
  set (self1 := snd (dispatch_trace workflow_name user_input 0 (tools cfg) self))
    in *.
  assert (Hcfg1 : workflows self1 !! workflow_name =
            Some (mk_workflow_config (map (stored_step user_input) (tools cfg))))
    by (by rewrite Hw, lookup_insert_eq).
  do 2 eexists. split; [exact Hcfg1|].
  split; [by apply execute_workflow_v2_found|]. cbn [tools].
  pose proof (dispatch_trace_calls workflow_name user_input'
                (map (stored_step user_input) (tools cfg)) 0 self1) as Hcalls.
  apply (f_equal (map snd)) in Hcalls. rewrite !map_map in Hcalls.
  cbn in Hcalls. rewrite Hcalls. apply map_ext. intros step.
  by apply call_parameters_stored.
Qed.

(** X13. [completed_steps] is the number of distinct [tool_action] keys among
    the steps whose dispatch returned: two such steps with the same tool
    and action count once. *)
Theorem completed_steps_counts_distinct_keys
    self workflow_name user_input context cfg :
  workflows self !! workflow_name = Some cfg →
  let tr := fst (dispatch_trace workflow_name user_input 0 (tools cfg) self) in
  ∃ r self' md,
    execute_workflow_v2 workflow_name user_input context self = (Ok r, self') ∧
    wr_metadata r = Some md ∧
    completed_steps md = length (remove_dups (omap stored_key tr)).
Proof.
  intros Hcfg tr. do 3 eexists.
  split; [by apply execute_workflow_v2_found|]. split; [done|].
  cbn [completed_steps]. fold tr.
  rewrite <- (size_dom (D:=gset string)).
  rewrite <- (size_list_to_set (C:=gset string)) by apply NoDup_remove_dups.
  f_equal. apply set_eq. intros k.
  rewrite elem_of_dom, elem_of_list_to_set, elem_of_remove_dups,
    list_elem_of_omap.
  unfold stored_results. rewrite stored_results_dom. split.
  - intros [Hs|Hs]; [|done]. rewrite lookup_empty in Hs. by destruct Hs.
  - intros Hs. by right.
Qed.

(** ** The reports *)

(** X14. For a report whose success rate, if it has one, is a number,
    [_generate_performance_recommendations] returns without touching the
    manager a sublist of the three pieces of advice in their fixed order
    (low success rate, no calls yet, hybrid mode); in hybrid mode the list
    ends with the hybrid advice, so it is never empty; and for a report
    without a summary the missing keys count as a success rate of 100 and
    no calls: the advice is to test, followed in hybrid mode by the hybrid
    advice. *)
Theorem recommendations_in_fixed_order self (report : @Report F) :
  (∀ summary v,
     report_summary report = Some summary →
     summary !! "success_rate" = Some v → is_number v) →
  ∃ recs,
    _generate_performance_recommendations report self = (Ok recs, self) ∧
    recs `sublist_of` [low_success_advice; no_calls_advice; hybrid_advice] ∧
    (tool_mode self = HYBRID → last recs = Some hybrid_advice) ∧
    (report_summary report = None →
     recs = no_calls_advice ::
            if decide (tool_mode self = HYBRID) then [hybrid_advice] else []).
Proof.
  intros Hnum. unfold _generate_performance_recommendations.
  set (rate := params_get (default ∅ (report_summary report)) "success_rate"
                 (VInt 100)).
  assert (Hrate : is_number rate ∧
            (report_summary report = None → rate = VInt 100)).
  { subst rate. unfold params_get.
    destruct (report_summary report) as [summary|] eqn:Hs; cbn.
    - split; [|done].
      destruct (summary !! "success_rate") as [v|] eqn:Hv; cbn; [|done].
      by eapply Hnum.
    - by rewrite lookup_empty. }
  destruct Hrate as [Hnumber Hdefault].
  assert (Hlt : ∃ low, lt_int (S:=@MCPToolsManagerV2 F E R P) rate 90 self =
                         (Ok low, self) ∧
                       (rate = VInt 100 → low = false)).
  { destruct rate; try done; eexists; (split; [done|]);
      intros [= ->]; done. }
  destruct Hlt as (low & Hlt & Hlow).
  unfold bind at 1. rewrite Hlt. unfold bind, get, ret.
  eexists. split; [done|]. split; [|split].
  - destruct low, (eq_int _ 0), (decide (tool_mode self = HYBRID)); cbn;
      repeat first [apply sublist_skip | apply sublist_cons | apply sublist_nil].
  - intros Hmode. rewrite decide_True by done. by rewrite last_snoc.
  - intros Hnone. rewrite (Hlow (Hdefault Hnone)), Hnone. cbn.
    unfold params_get. rewrite lookup_empty. cbn.
    by destruct (decide (tool_mode self = HYBRID)).
Qed.

Lemma recommendations_frame self (report : @Report F) :
  snd (_generate_performance_recommendations report self) = self.
Proof.
  unfold _generate_performance_recommendations, bind, get, ret, lt_int, raise.
  by destruct (params_get _ "success_rate" _).
Qed.

Lemma performance_report_frame self :
  snd (get_performance_report self) =
  set_enhanced_tools
    (snd (enhanced_get_performance_report (enhanced_tools self))) self.
Proof.
  unfold get_performance_report, bind at 1, zoom.
  destruct (enhanced_get_performance_report (enhanced_tools self))
    as [[report|e] e']; [|done].
  unfold bind at 1, get. unfold bind.
  pose proof (recommendations_frame (set_enhanced_tools e' self) report) as Hf.
  destruct (_generate_performance_recommendations report
              (set_enhanced_tools e' self)) as [[recs|e] self2];
    cbn [snd] in *; by subst.
Qed.

Lemma health_check_frame self :
  ∃ r',
    snd (health_check self) = set_real_mcp_interface r' self ∧
    (is_Some r' ↔ is_Some (real_mcp_interface self)).
Proof.
  unfold health_check, bind at 1, get.
  destruct (real_mcp_interface self) as [r|] eqn:Hreal.
  - unfold try_except, bind, ret.
    destruct (on_real_interface_frame list_available_tools self)
      as (r' & Hsnd & Hsome).
    destruct (on_real_interface list_available_tools self) as [[tools|e] self1];
      cbn [snd] in *; exists r'; by rewrite Hreal in Hsome.
  - exists None. cbn. split; [by destruct self; cbn in *; subst|done].
Qed.

Lemma cleanup_frame self :
  ∃ r',
    snd (cleanup self) = set_real_mcp_interface r' self ∧
    (is_Some r' ↔ is_Some (real_mcp_interface self)).
Proof.
  unfold cleanup, bind, get.
  destruct (real_mcp_interface self) as [r|] eqn:Hreal.
  - rewrite <- Hreal. apply on_real_interface_frame.
  - exists None. cbn. split; [by destruct self; cbn in *; subst|done].
Qed.

Lemma run_operation_frame self (op : @operation F) :
  tool_mode (run_operation self op) = tool_mode self ∧
  tool_performance_stats (run_operation self op) = tool_performance_stats self.
Proof.
  destruct op as [|t a p|t a p|t a p|w u c| | |]; cbn [run_operation].
  - by rewrite initialize_frame.
  - by rewrite call_tool_smart_frame.
  - by destruct (real_path_frame self t a p) as (r' & -> & _).
  - by destruct (placeholder_path_frame self t a p) as (p' & ->).
  - destruct (workflows self !! w) as [cfg|] eqn:Hcfg.
    + rewrite (execute_workflow_v2_found _ _ _ _ cfg) by done. cbn [snd].
      destruct (dispatch_trace_registry w u (tools cfg) [] self cfg Hcfg
                  eq_refl) as (_ & Hm & Hs & _).
      cbn [length] in *. by rewrite Hm, Hs.
    + unfold execute_workflow_v2, bind, get. by rewrite Hcfg.
  - by rewrite performance_report_frame.
  - by destruct (health_check_frame self) as (r' & -> & _).
  - by destruct (cleanup_frame self) as (r' & -> & _).
Qed.

(** X15. No method of the manager but [_update_performance_stats] writes the
    statistics or the mode: after any sequence of initializations,
    dispatches, real and placeholder calls, workflow runs, reports, health
    checks and cleanups on a manager built by [__init__], the statistics are
    still empty and the mode is the one it was built with, so every report
    [get_performance_report] returns has empty [legacy_stats], and carries
    the summary of the enhanced report it embeds. *)
Theorem legacy_stats_stay_empty (ops : list (@operation F)) mode :
  let self := run_operations ops (MCPToolsManagerV2_init mode) in
  tool_performance_stats self = ∅ ∧
  tool_mode self = mode ∧
  ∀ report self',
    get_performance_report self = (Ok report, self') →
    pr_legacy_stats report = ∅ ∧
    pr_tool_mode report = ToolMode_value mode ∧
    pr_summary report =
      default ∅ (report_summary (pr_enhanced_tools_report report)).
Proof.
  cbn zeta.
  assert (Hframe : ∀ self,
            tool_mode (run_operations ops self) = tool_mode self ∧
            tool_performance_stats (run_operations ops self) =
              tool_performance_stats self).
  { unfold run_operations. induction ops as [|op ops IH]; intros self; [done|].
    cbn [fold_left]. destruct (IH (run_operation self op)) as [-> ->].
    apply run_operation_frame. }
  destruct (Hframe (MCPToolsManagerV2_init mode)) as [Hmode Hstats].
  split; [by rewrite Hstats|]. split; [by rewrite Hmode|].
  intros report self'. unfold get_performance_report, bind at 1, zoom.
  destruct (enhanced_get_performance_report _) as [[er|e] e']; [|done].
  unfold bind at 1, get. unfold bind at 1.
  destruct (_generate_performance_recommendations er _) as [[recs|e] self2];
    [|done].
  unfold ret. intros [= <- <-]. cbn. by rewrite Hmode, Hstats.
Qed.

(** X16. [health_check] never raises, reports the mode of the manager and an
    available placeholder interface; the real interface is "not_available"
    when there is none, "available" with the number of tools when its
    listing returns, and "error: " followed by the text of the exception
    when its listing raises; the count is present in the first of the
    three cases only. *)
Theorem health_check_status self :
  ∃ status self',
    health_check self = (Ok status, self') ∧
    status !! "tool_mode" = Some (VStr (ToolMode_value (tool_mode self))) ∧
    status !! "placeholder_interface" = Some (VStr "available") ∧
    match real_mcp_interface self with
    | None =>
        status !! "real_mcp_interface" = Some (VStr "not_available") ∧
        status !! "real_mcp_tools_count" = None ∧
        self' = self
    | Some r =>
        match fst (list_available_tools r) with
        | Ok tools =>
            status !! "real_mcp_interface" = Some (VStr "available") ∧
            status !! "real_mcp_tools_count" =
              Some (VInt (Z.of_nat (length tools)))
        | Raise e =>
            status !! "real_mcp_interface" =
              Some (VStr ("error: " ++ str_exn e)%string) ∧
            status !! "real_mcp_tools_count" = None
        end
    end.
Proof.
  unfold health_check, bind at 1, get.
  destruct (real_mcp_interface self) as [r|] eqn:Hreal.
  - unfold try_except, bind, ret, on_real_interface. rewrite Hreal.
    destruct (list_available_tools r) as [[tools|e] r']; cbn [fst];
      do 2 eexists; (split; [done|]); by simplify_map_eq.
  - unfold ret. do 2 eexists. split; [done|]. by simplify_map_eq.
Qed.

End OperationProperties.

(** * The properties on the concrete configuration *)

Import Demo.

(** Three calls recorded on a fresh manager, two of them for the
    calculator: one success in half a second, one failure in a second and
    a half. *)
Lemma performance_stats_invariant_witness :
  tool_performance_stats (manager HYBRID) = ∅ ∧
  ∃ self' st,
    record_calls
      [("calculator", true, 1 # 2); ("clock", false, 1 # 4);
       ("calculator", false, 3 # 2)]%Q (manager HYBRID) = (Ok tt, self') ∧
    tool_performance_stats self' !! "calculator" = Some st ∧
    total_calls st = 2 ∧ successful_calls st = 1 ∧ failed_calls st = 1 ∧
    average_execution_time st = (1 # 1)%Q.
Proof.
  split; [reflexivity|].
  destruct (performance_stats_invariant (manager HYBRID)
              [("calculator", true, 1 # 2); ("clock", false, 1 # 4);
               ("calculator", false, 3 # 2)]%Q "calculator" eq_refl)
    as (self' & Hrun & Hst).
  cbn zeta in Hst.
  destruct (tool_performance_stats self' !! "calculator") as [st|] eqn:Hentry;
    [|discriminate Hst].
  destruct Hst as (_ & _ & _ & Htotal & Hok & Hfailed & Havg).
  exists self', st.
  repeat split;
    [exact Hrun|exact Hentry|exact Htotal|exact Hok|exact Hfailed|exact Havg].
Defined.


(** The workflow ["daily_checkin"] run with ["2+2"]: the scripted
    collaborator logged the calculator call with the template still under
    ["expression"], not with ["2+2"], and that is what it echoed into
    [results]. *)
Lemma expression_template_counterexample :
  let '(o, self') :=
    execute_workflow_v2 "daily_checkin" "2+2" ∅ (manager HYBRID) in
  ∃ r parameters,
    o = Ok r ∧
    enhanced_tools self' =
      [("clock", "get_time", ∅); ("calculator", "calculate", parameters)] ∧
    parameters !! "expression" = Some (VStr "{{user_input}}") ∧
    parameters !! "expression" ≠ Some (VStr "2+2") ∧
    wr_results r !! "calculator_calculate" = Some (VStr "{{user_input}}").
Proof.
  vm_compute. do 2 eexists. repeat split; try reflexivity. discriminate.
Qed.

(** An unknown workflow name. *)
Lemma unknown_workflow_is_reported_witness :
  workflows (manager HYBRID) !! "nonexistent" = None ∧
  execute_workflow_v2 "nonexistent" "2+2" ∅ (manager HYBRID) =
  (Ok (mk_workflow_result false "nonexistent" ∅ "工作流配置不存在" None),
   manager HYBRID).
Proof.
  split; [reflexivity|].
  apply (unknown_workflow_is_reported (manager HYBRID) "nonexistent" "2+2" ∅).
  reflexivity.
Defined.

(** The workflow ["bumpy"]: a step that raises, a step that fails without
    raising and a step that succeeds. *)
Lemma registered_workflow_runs_to_completion_witness :
  workflows (manager HYBRID) !! "bumpy" = Some bumpy ∧
  ∃ r self',
    execute_workflow_v2 "bumpy" "2+2" ∅ (manager HYBRID) = (Ok r, self') ∧
    wr_success r = true ∧
    enhanced_tools self' =
      [("broken", "run", ∅); ("flaky", "run", ∅); ("clock", "get_time", ∅)].
Proof.
  split; [reflexivity|].
  destruct (registered_workflow_runs_to_completion (manager HYBRID) "bumpy"
              "2+2" ∅ bumpy eq_refl) as (r & Hrun & Hsuccess & _).
  exists r. eexists. split; [exact Hrun|]. split; [exact Hsuccess|].
  reflexivity.
Defined.

Lemma workflow_step_counts_witness :
  workflows (manager HYBRID) !! "bumpy" = Some bumpy ∧
  ∃ r self' md,
    execute_workflow_v2 "bumpy" "2+2" ∅ (manager HYBRID) = (Ok r, self') ∧
    wr_metadata r = Some md ∧
    total_steps md = 3%nat ∧
    (size (wr_results r) ≤ 3)%nat.
Proof.
  split; [reflexivity|].
  destruct (workflow_step_counts (manager HYBRID) "bumpy" "2+2" ∅ bumpy eq_refl)
    as (r & self' & md & Hrun & Hmd & Htotal & _ & Hle).
  exists r, self', md. rewrite Htotal in Hle. repeat split; assumption.
Defined.

Lemma failed_results_are_stored_witness :
  workflows (manager HYBRID) !! "bumpy" = Some bumpy ∧
  ∃ r self' md,
    execute_workflow_v2 "bumpy" "2+2" ∅ (manager HYBRID) = (Ok r, self') ∧
    wr_metadata r = Some md ∧
    wr_execution_summary r =
      String.concat newline
        ["❌ broken.run 失败: backend crashed";
         "✅ flaky.run (real_mcp) - 0.50s";
         "✅ clock.get_time (placeholder) - 0.25s"] ∧
    is_Some (wr_results r !! "flaky_run") ∧
    completed_steps md = size (wr_results r).
Proof.
  split; [reflexivity|].
  destruct (failed_results_are_stored (manager HYBRID) "bumpy" "2+2" ∅ bumpy
              eq_refl)
    as (r & self' & md & Hrun & _ & Hmd & _ & Hsummary & _ & Hline & _ & _ &
        Hcount).
  exists r, self', md.
  split; [exact Hrun|]. split; [exact Hmd|].
  split; [rewrite Hsummary; vm_compute; reflexivity|].
  split; [|exact Hcount].
  apply (Hline 1%nat (mk_step "flaky" "run" (Some ∅)) ∅
           (mk_tool_call_result false VNone "flaky" REAL_MCP
              (Some "service unavailable") (1 # 2)%Q)).
  reflexivity.
Defined.

(** The workflow ["ask"], whose step has the template under the key
    ["user_input"]. *)
Lemma user_input_template_is_substituted_witness :
  workflows (manager HYBRID) !! "ask" = Some ask ∧
  ∃ r self',
    execute_workflow_v2 "ask" "2+2" ∅ (manager HYBRID) = (Ok r, self') ∧
    enhanced_tools self' =
      [("calculator", "calculate", {[ "user_input" := VStr "2+2" ]})].
Proof.
  split; [reflexivity|].
  destruct (user_input_template_is_substituted (manager HYBRID) "ask" "2+2" ∅
              ask eq_refl) as (r & Hrun & _).
  exists r. eexists. split; [exact Hrun|]. reflexivity.
Defined.

(** The substitution writes into the registered configuration: a second run
    of ["ask"] finds the first input where the template was and dispatches
    it again. *)
Lemma template_is_consumed_by_the_first_run :
  let '(_, self1) := execute_workflow_v2 "ask" "2+2" ∅ (manager HYBRID) in
  let '(_, self2) := execute_workflow_v2 "ask" "3+3" ∅ self1 in
  enhanced_tools self2 =
    [("calculator", "calculate", {[ "user_input" := VStr "2+2" ]});
     ("calculator", "calculate", {[ "user_input" := VStr "2+2" ]})].
Proof. vm_compute. reflexivity. Qed.

(** The calculator asked to divide and an unmapped tool asked for a
    forecast, on a manager with a real interface. *)
Lemma real_path_unsupported_action_witness :
  let self := set_real_mcp_interface (Some tt) (manager REAL_MCP) in
  real_mcp_interface self = Some tt ∧
  ("calculator" ∈ mapped_tools) ∧
  ("divide" ∉ adapter_actions "calculator") ∧
  ("weather" ∉ mapped_tools) ∧
  _call_real_mcp_tool "calculator" "divide" ∅ self =
    (Raise (mk_exn ValueError "不支持的计算器操作: divide"), self) ∧
  _call_real_mcp_tool "weather" "forecast" ∅ self =
    (Ok (VStr "generic:forecast"), self).
Proof.
  cbn zeta. split; [reflexivity|].
  assert (Hin : "calculator" ∈ mapped_tools) by (by repeat constructor).
  assert (Hact : "divide" ∉ adapter_actions "calculator").
  { intros Hd%list_elem_of_In. destruct Hd as [Hd|[]]. discriminate Hd. }
  assert (Hnot : "weather" ∉ mapped_tools).
  { intros Hd%list_elem_of_In. cbn in Hd.
    repeat (destruct Hd as [Hd|Hd]; [discriminate Hd|]). exact Hd. }
  split; [exact Hin|]. split; [exact Hact|]. split; [exact Hnot|]. split.
  - exact (proj1 (proj2 (real_path_unsupported_action
                    (set_real_mcp_interface (Some tt) (manager REAL_MCP))
                    "calculator" "divide" ∅) tt eq_refl) Hin Hact).
  - rewrite (proj2 (proj2 (real_path_unsupported_action
                      (set_real_mcp_interface (Some tt) (manager REAL_MCP))
                      "weather" "forecast" ∅) tt eq_refl) Hnot).
    reflexivity.
Defined.

(** Three calls of the accessor, the first in real mode, where
    [initialize] fails. *)
Lemma manager_is_a_singleton_witness :
  let g := @mk_module_state Q Script unit unit [] None in
  _mcp_tools_manager_v2 g = None ∧
  fst (get_manager_calls [REAL_MCP; HYBRID; PLACEHOLDER] g) =
    [Raise (mk_exn RuntimeError "真实MCP模式需要安装MCP依赖");
     Ok (Some 0%nat); Ok (Some 0%nat)] ∧
  ∃ obj,
    heap (snd (get_manager_calls [REAL_MCP; HYBRID; PLACEHOLDER] g)) !! 0%nat =
      Some obj ∧
    tool_mode obj = REAL_MCP.
Proof.
  cbn zeta. split; [reflexivity|].
  destruct (manager_is_a_singleton (@mk_module_state Q Script unit unit [] None)
              REAL_MCP [HYBRID; PLACEHOLDER] eq_refl)
    as (_ & _ & Houts & _ & _ & Hobj).
  split; [rewrite Houts; reflexivity|exact Hobj].
Defined.

(** A dispatch in real mode on a dispatcher whose real interface was never
    initialized. *)
Lemma dispatch_never_raises_witness :
  let self : @MCPToolsManagerV2 Q (@Dispatcher Q down up) unit unit :=
    MCPToolsManagerV2_init REAL_MCP in
  ∃ r self',
    call_tool_smart "calculator" "calculate" ∅ self = (Ok r, self') ∧
    tcr_success r = false ∧
    tcr_error r = Some "真实MCP接口未初始化".
Proof.
  cbn zeta.
  destruct (dispatch_never_raises
              (MCPToolsManagerV2_init REAL_MCP
                 : @MCPToolsManagerV2 Q (@Dispatcher Q down up) unit unit)
              "calculator" "calculate" ∅)
    as (r & self' & Hrun & _ & _ & Huninit).
  exists r, self'. split; [exact Hrun|]. apply Huninit; reflexivity.
Defined.

(** * The properties of the rest of the manager on the concrete
    configuration *)

Import DemoOperations.

(** A manager whose calculator was called twice, once with success, in two
    seconds altogether. *)
Lemma stats_invariant_is_inductive_witness :
  let self :=
    set_tool_performance_stats
      {[ "calculator" := mk_stats 2 1 1 (2 # 1)%Q (1 # 1)%Q ]} (manager HYBRID) in
  (∀ k st, tool_performance_stats self !! k = Some st → stats_ok st) ∧
  fits_double 3 ∧
  ∃ d',
    _update_performance_stats "calculator" true (1 # 1)%Q self =
      (Ok tt, set_tool_performance_stats d' self) ∧
    recorded_calls "calculator" (set_tool_performance_stats d' self) = 3%Z.
Proof.
  cbn zeta.
  assert (Hok : ∀ k st,
            tool_performance_stats
              (set_tool_performance_stats
                 {[ "calculator" := mk_stats 2 1 1 (2 # 1)%Q (1 # 1)%Q ]}
                 (manager HYBRID)) !! k = Some st → stats_ok st).
  { intros k st Hk. cbn in Hk. apply lookup_singleton_Some in Hk as [_ <-].
    unfold stats_ok. cbn. repeat split; try lia. }
  assert (Hfits : fits_double 3) by (split; reflexivity).
  split; [exact Hok|]. split; [exact Hfits|].
  destruct (stats_invariant_is_inductive _ "calculator" true (1 # 1)%Q Hok Hfits)
    as (d' & Hrun & _ & _ & Hcount).
  exists d'. split; [exact Hrun|exact Hcount].
Defined.

(** An entry that was tampered with. *)
Lemma update_raises_only_on_zero_total_witness :
  let broken := mk_stats (-1) 0 0 (0 # 1)%Q (0 # 1)%Q in
  let self :=
    set_tool_performance_stats {[ "calculator" := broken ]} (manager HYBRID) in
  tool_performance_stats self !! "calculator" = Some broken ∧
  total_calls broken = (-1)%Z ∧
  fst (_update_performance_stats "calculator" true (1 # 2)%Q self) =
    Raise (mk_exn ZeroDivisionError "float division by zero") ∧
  fits_double 1 ∧
  fst (_update_performance_stats "clock" true (1 # 2)%Q self) = Ok tt.
Proof.
  cbn zeta.
  assert (Hentry :
    tool_performance_stats
      (set_tool_performance_stats
         {[ "calculator" := mk_stats (-1) 0 0 (0 # 1)%Q (0 # 1)%Q ]}
         (manager HYBRID)) !! "calculator" =
    Some (mk_stats (-1) 0 0 (0 # 1)%Q (0 # 1)%Q)) by reflexivity.
  split; [exact Hentry|]. split; [reflexivity|].
  assert (Hfits : fits_double 1) by (split; reflexivity).
  split; [|split; [exact Hfits|]].
  - rewrite (proj2 (update_raises_only_on_zero_total _ "calculator" true
                      (1 # 2)%Q) _ Hentry eq_refl).
    reflexivity.
  - apply (proj1 (update_raises_only_on_zero_total _ "clock" true (1 # 2)%Q));
      [exact Hfits|vm_compute; discriminate].
Defined.

Lemma updates_of_different_tools_commute_witness :
  "calculator" ≠ "clock" ∧
  fits_double 1 ∧
  (_update_performance_stats "calculator" true (1 # 2)%Q ;;;
   _update_performance_stats "clock" false (1 # 4)%Q) (manager HYBRID) =
  (_update_performance_stats "clock" false (1 # 4)%Q ;;;
   _update_performance_stats "calculator" true (1 # 2)%Q) (manager HYBRID).
Proof.
  assert (Hfits : fits_double 1) by (split; reflexivity).
  split; [discriminate|]. split; [exact Hfits|].
  apply (updates_of_different_tools_commute (manager HYBRID)
           "calculator" true (1 # 2)%Q "clock" false (1 # 4)%Q);
    [discriminate|exact Hfits|exact Hfits
    |vm_compute; discriminate|vm_compute; discriminate].
Defined.

Lemma stats_depend_on_own_calls_witness :
  let cs := [("calculator", true, 1 # 2); ("clock", false, 1 # 4);
             ("calculator", false, 3 # 2)]%Q in
  let cs' := [("calculator", true, 1 # 2); ("calculator", false, 3 # 2);
              ("time", true, 1 # 8)]%Q in
  tool_performance_stats (manager HYBRID) = ∅ ∧
  calls_of "calculator" cs = calls_of "calculator" cs' ∧
  tool_performance_stats (snd (record_calls cs (manager HYBRID))) !! "calculator" =
  tool_performance_stats (snd (record_calls cs' (manager REAL_MCP))) !! "calculator".
Proof.
  cbn zeta. split; [reflexivity|]. split; [reflexivity|].
  apply (stats_depend_on_own_calls (manager HYBRID) (manager REAL_MCP));
    reflexivity.
Defined.

(** The initialization of the scripted collaborator fails with an
    [ImportError]. *)
Lemma initialize_outcome_witness :
  tool_mode (manager REAL_MCP) = REAL_MCP ∧
  fst (initialize_real_interface (enhanced_tools (manager REAL_MCP))) =
    Raise (mk_exn ImportError "No module named 'mcp'") ∧
  fst (initialize (manager REAL_MCP)) =
    Raise (mk_exn RuntimeError "真实MCP模式需要安装MCP依赖") ∧
  fst (initialize (manager HYBRID)) = Ok tt.
Proof.
  split; [reflexivity|]. split; [reflexivity|]. split.
  - exact (proj2 (proj2 (proj2 (initialize_outcome (manager REAL_MCP))))
             (mk_exn ImportError "No module named 'mcp'") eq_refl eq_refl).
  - apply (proj1 (proj2 (initialize_outcome (manager HYBRID)))). discriminate.
Defined.

Lemma accessor_and_failed_initialization_witness :
  let g := @mk_module_state Q Script unit unit [] None in
  _mcp_tools_manager_v2 g = None ∧
  fst (get_mcp_tools_manager_v2 HYBRID g) = Ok (Some 0%nat) ∧
  fst (get_mcp_tools_manager_v2 REAL_MCP g) =
    Raise (mk_exn RuntimeError "真实MCP模式需要安装MCP依赖").
Proof.
  cbn zeta. split; [reflexivity|]. split.
  - apply (proj1 (accessor_and_failed_initialization
                    (@mk_module_state Q Script unit unit [] None)
                    HYBRID HYBRID eq_refl)).
    discriminate.
  - apply (proj2 (accessor_and_failed_initialization
                    (@mk_module_state Q Script unit unit [] None)
                    REAL_MCP HYBRID eq_refl)).
    reflexivity.
Defined.

(** A key the calculator does not read. *)
Lemma real_path_ignores_other_keys_witness :
  let self := set_real_mcp_interface (Some tt) (manager REAL_MCP) in
  ("calculator" ∈ mapped_tools) ∧
  _call_real_mcp_tool "calculator" "calculate"
    {[ "expression" := VStr "1+1" ]} self =
  _call_real_mcp_tool "calculator" "calculate"
    {[ "expression" := VStr "1+1"; "precision" := VInt 3 ]} self.
Proof.
  cbn zeta.
  assert (Hin : "calculator" ∈ mapped_tools) by (by repeat constructor).
  split; [exact Hin|].
  apply real_path_ignores_other_keys; [exact Hin|].
  intros k dv Hk%list_elem_of_In. cbn in Hk.
  destruct Hk as [[= <- <-]|[]]. reflexivity.
Defined.

(** A search without a count. *)
Lemma real_path_missing_key_is_default_witness :
  let self := set_real_mcp_interface (Some tt) (manager REAL_MCP) in
  let parameters : gmap string (@value Q) := {[ "query" := VStr "rocq" ]} in
  (("count", VInt 5) ∈ adapter_defaults (F:=Q) "brave_search" "search") ∧
  parameters !! "count" = None ∧
  _call_real_mcp_tool "brave_search" "search" parameters self =
  _call_real_mcp_tool "brave_search" "search"
    (<["count" := VInt 5]> parameters) self.
Proof.
  cbn zeta.
  assert (Hk : ("count", VInt 5) ∈ adapter_defaults (F:=Q) "brave_search" "search")
    by (by repeat constructor).
  assert (Hnone : ({[ "query" := VStr "rocq" ]} : gmap string (@value Q))
                   !! "count" = None) by reflexivity.
  split; [exact Hk|]. split; [exact Hnone|].
  apply (real_path_missing_key_is_default
           (set_real_mcp_interface (Some tt) (manager REAL_MCP))
           "brave_search" "search" {[ "query" := VStr "rocq" ]} "count" (VInt 5)
           Hk Hnone).
Defined.

(** The workflow ["ask"], run with ["2+2"] and then with ["3+3"]. *)
Lemma workflow_run_rewrites_registry_witness :
  workflows (manager HYBRID) !! "ask" = Some ask ∧
  ∃ cfg',
    workflows (snd (execute_workflow_v2 "ask" "2+2" ∅ (manager HYBRID))) !! "ask" =
      Some cfg' ∧
    tools cfg' =
      [mk_step "calculator" "calculate" (Some {[ "user_input" := VStr "2+2" ]})].
Proof.
  split; [reflexivity|].
  destruct (workflow_run_rewrites_registry (manager HYBRID) "ask" "2+2" ∅ ask
              eq_refl) as (cfg' & Hcfg' & _).
  exists cfg'. split; [exact Hcfg'|].
  cut (Some (tools cfg') =
       Some [mk_step "calculator" "calculate"
               (Some ({[ "user_input" := VStr "2+2" ]} : gmap string (@value Q)))]).
  { by intros [= ->]. }
  change (Some (tools cfg')) with (tools <$> Some cfg'). rewrite <- Hcfg'.
  vm_compute. reflexivity.
Defined.

Lemma first_user_input_sticks_witness :
  workflows (manager HYBRID) !! "ask" = Some ask ∧
  "2+2" ≠ "{{user_input}}" ∧
  let self1 := snd (execute_workflow_v2 "ask" "2+2" ∅ (manager HYBRID)) in
  ∃ cfg1,
    workflows self1 !! "ask" = Some cfg1 ∧
    map (fun c : Dispatched => snd (fst c))
      (fst (dispatch_trace "ask" "3+3" 0 (tools cfg1) self1)) =
    [{[ "user_input" := VStr "2+2" ]}].
Proof.
  split; [reflexivity|]. split; [discriminate|]. cbn zeta.
  destruct (first_user_input_sticks (manager HYBRID) "ask" "2+2" ∅ "3+3" ∅ ask
              eq_refl ltac:(discriminate)) as (cfg1 & r2 & Hcfg1 & _ & Hsame).
  exists cfg1. split; [exact Hcfg1|]. rewrite Hsame. reflexivity.
Defined.

(** The workflow ["bumpy"]: two of its three steps return. *)
Lemma completed_steps_counts_distinct_keys_witness :
  workflows (manager HYBRID) !! "bumpy" = Some bumpy ∧
  ∃ r self' md,
    execute_workflow_v2 "bumpy" "2+2" ∅ (manager HYBRID) = (Ok r, self') ∧
    wr_metadata r = Some md ∧
    completed_steps md = 2%nat.
Proof.
  split; [reflexivity|].
  destruct (completed_steps_counts_distinct_keys (manager HYBRID) "bumpy" "2+2"
              ∅ bumpy eq_refl) as (r & self' & md & Hrun & Hmd & Hcount).
  exists r, self', md. split; [exact Hrun|]. split; [exact Hmd|].
  rewrite Hcount. vm_compute. reflexivity.
Defined.

(** The report of the scripted collaborator: a success rate of 88.9 over
    nine calls. *)
Lemma recommendations_in_fixed_order_witness :
  let report : @Report Q :=
    mk_report (Some {[ "success_rate" := VFloat (889 # 10)%Q;
                       "total_calls" := VInt 9 ]}) in
  (∀ summary v,
     report_summary report = Some summary →
     summary !! "success_rate" = Some v → is_number v) ∧
  _generate_performance_recommendations report (manager HYBRID) =
    (Ok [low_success_advice; hybrid_advice], manager HYBRID).
Proof.
  cbn zeta.
  assert (Hnum : ∀ summary v,
            report_summary
              (mk_report (Some ({[ "success_rate" := VFloat (889 # 10)%Q;
                                   "total_calls" := VInt 9 ]}
                                : gmap string (@value Q)))) = Some summary →
            summary !! "success_rate" = Some v → is_number v).
  { intros summary v [= <-] Hv. vm_compute in Hv. by injection Hv as <-. }
  split; [exact Hnum|].
  destruct (recommendations_in_fixed_order (manager HYBRID) _ Hnum)
    as (recs & Hrun & _).
  rewrite Hrun. f_equal. f_equal.
  cut (Some recs = Some [low_success_advice; hybrid_advice]).
  { by intros [= ->]. }
  assert (Hrecs : fst (_generate_performance_recommendations
                         (mk_report (Some ({[ "success_rate" := VFloat (889 # 10)%Q;
                                              "total_calls" := VInt 9 ]}
                                           : gmap string (@value Q))))
                         (manager HYBRID)) = Ok recs) by (by rewrite Hrun).
  vm_compute in Hrecs. by injection Hrecs as <-.
Defined.

Lemma workflow_run_frame_witness :
  let self' := snd (execute_workflow_v2 "ask" "2+2" ∅ (manager HYBRID)) in
  tool_mode self' = HYBRID ∧
  tool_performance_stats self' = ∅ ∧
  real_mcp_interface self' = None ∧
  is_Some (workflows self' !! "bumpy").
Proof.
  cbn zeta.
  destruct (workflow_run_frame (manager HYBRID) "ask" "2+2" ∅)
    as (Hmode & Hstats & Hreal & _ & Hnames).
  split; [exact Hmode|]. split; [exact Hstats|]. split; [exact Hreal|].
  apply Hnames. by eexists.
Defined.

(** A manager that was initialized, ran a workflow, dispatched a call and
    checked its health. *)
Lemma legacy_stats_stay_empty_witness :
  let self :=
    run_operations
      [OpInitialize; OpExecuteWorkflow "bumpy" "2+2" ∅;
       OpCallToolSmart "calculator" "calculate" ∅; OpHealthCheck]
      (manager HYBRID) in
  ∃ report self',
    get_performance_report self = (Ok report, self') ∧
    pr_legacy_stats report = ∅ ∧
    pr_recommendations report = [low_success_advice; hybrid_advice].
Proof.
  cbn zeta. do 2 eexists.
  assert (Hrun :
    get_performance_report
      (run_operations
         [OpInitialize; OpExecuteWorkflow "bumpy" "2+2" ∅;
          OpCallToolSmart "calculator" "calculate" ∅; OpHealthCheck]
         (manager HYBRID)) =
    (fst (get_performance_report
            (run_operations
               [OpInitialize; OpExecuteWorkflow "bumpy" "2+2" ∅;
                OpCallToolSmart "calculator" "calculate" ∅; OpHealthCheck]
               (manager HYBRID))),
     snd (get_performance_report
            (run_operations
               [OpInitialize; OpExecuteWorkflow "bumpy" "2+2" ∅;
                OpCallToolSmart "calculator" "calculate" ∅; OpHealthCheck]
               (manager HYBRID))))) by (by destruct (get_performance_report _)).
  split; [exact Hrun|]. split; [|vm_compute; reflexivity].
  refine (proj1 (proj2 (proj2 (legacy_stats_stay_empty
            [OpInitialize; OpExecuteWorkflow "bumpy" "2+2" ∅;
             OpCallToolSmart "calculator" "calculate" ∅; OpHealthCheck]
            HYBRID)) _ _ _)).
  exact Hrun.
Defined.

(** The health of a manager whose real interface lists two tools. *)
Lemma health_check_status_witness :
  let self := set_real_mcp_interface (Some tt) (manager REAL_MCP) in
  ∃ status self',
    health_check self = (Ok status, self') ∧
    status !! "real_mcp_interface" = Some (VStr "available") ∧
    status !! "real_mcp_tools_count" = Some (VInt 2).
Proof.
  cbn zeta.
  destruct (health_check_status
              (set_real_mcp_interface (Some tt) (manager REAL_MCP)))
    as (status & self' & Hrun & _ & _ & Hreal).
  exists status, self'. split; [exact Hrun|]. exact Hreal.
Defined.
